(** * AxraPay SDK test harness: the tester class and the page that drives it

    A shallow embedding of [src/lib/axrapay.ts] (class [AxraPayTester]) and of
    the handlers of [src/App.tsx], followed by the properties of the
    harness that are established about them.

    The payment SDK, [fetch], the clock and the page's DOM are outside the
    program.  The SDK and [fetch] are an [Environment] of answers; the DOM
    is the part of the document the harness itself reads and writes. *)

From Stdlib Require Import String Ascii List NArith Bool Lia.
From stdpp Require Import base strings gmap pretty.
Import ListNotations.

Local Open Scope string_scope.
Local Open Scope list_scope.

(* ===================================================================== *)
(** ** JavaScript values and control flow used by the harness            *)
(* ===================================================================== *)

Module Js.

(** A thrown value, as far as a [catch (error: any)] handler that reads
    [error.message] can tell values apart. *)
Inductive NullishValue : Type := js_null | js_undefined.

Inductive Thrown : Type :=
| ErrorObj (message : string)  (* an Error: [error.message] is a string *)
| NoMessage                    (* a value such as a thrown string: [error.message] is [undefined] *)
| Nullish (v : NullishValue).  (* [null] or [undefined]: reading [error.message] throws *)


(** How a statement list ends: normally with a value, or by throwing.
    For an [async] function, [Normal] is a resolved promise and [Throw]
    a rejected one. *)
Inductive Completion (A : Type) : Type :=
| Normal (a : A)
| Throw (e : Thrown).
Arguments Normal {A} a.
Arguments Throw {A} e.

(** The TypeError raised by reading property [prop] of [null] or of
    [undefined]; the text names which of the two.  Its wording depends
    on the engine; this is V8's. *)
Definition TypeError (v : NullishValue) (prop : string) : Thrown :=
  ErrorObj ("Cannot read properties of "
            +:+ match v with js_null => "null" | js_undefined => "undefined" end
            +:+ " (reading '" +:+ prop +:+ "')").

(** [!!s] for a string: only the empty string is falsy. *)
Definition truthy (s : string) : bool :=
  match s with EmptyString => false | String _ _ => true end.

(** [a || b] on strings. *)
Definition or_else (a b : string) : string := if truthy a then a else b.

(** A value interpolated in a template literal; [None] is [undefined]. *)
Definition interpolate (v : option string) : string :=
  match v with Some s => s | None => "undefined" end.

(** [String.prototype.startsWith]. *)
Fixpoint startsWith (needle hay : string) : bool :=
  match needle, hay with
  | EmptyString, _ => true
  | String _ _, EmptyString => false
  | String a n', String b h' => Ascii.eqb a b && startsWith n' h'
  end.

(** [hay.includes(needle)]: [needle] occurs in [hay] at some position.
    The comparison is exact, code unit by code unit. *)
Fixpoint includes (needle hay : string) : bool :=
  startsWith needle hay ||
  match hay with
  | EmptyString => false
  | String _ h' => includes needle h'
  end.

(** [c.toLowerCase()] on one code unit, for the letters A-Z. *)
Definition lowerAscii (c : ascii) : ascii :=
  let n := nat_of_ascii c in
  if (65 <=? n)%nat && (n <=? 90)%nat then ascii_of_nat (n + 32) else c.

Fixpoint toLowerCase (s : string) : string :=
  match s with
  | EmptyString => EmptyString
  | String c s' => String (lowerAscii c) (toLowerCase s')
  end.

(** Containment under case-insensitive comparison, the reading of the
    CORS probe's classification rule that ignores letter case.  The
    harness itself calls [includes]. *)
Definition includesIgnoringCase (needle hay : string) : bool :=
  includes (toLowerCase needle) (toLowerCase hay).

(** State and exceptions: a computation over a store of type [S] that
    ends normally or throws.  What was written to the store before a
    throw stays written. *)
Definition M (S A : Type) : Type := S -> Completion A * S.

Definition ret {S A} (a : A) : M S A := fun s => (Normal a, s).

Definition throw {S A} (e : Thrown) : M S A := fun s => (Throw e, s).

Definition bind {S A B} (m : M S A) (k : A -> M S B) : M S B :=
  fun s =>
    match m s with
    | (Normal a, s') => k a s'
    | (Throw e, s') => (Throw e, s')
    end.

(** [try { body } catch (error) { handler }]. *)
Definition try_catch {S A} (body : M S A) (handler : Thrown -> M S A) : M S A :=
  fun s =>
    match body s with
    | (Normal a, s') => (Normal a, s')
    | (Throw e, s') => handler e s'
    end.

Definition get {S} : M S S := fun s => (Normal s, s).

Definition modify {S} (f : S -> S) : M S unit := fun s => (Normal tt, f s).

(** Run a computation on a part of the store. *)
Definition zoom {S T A} (proj : S -> T) (inj : T -> S -> S) (m : M T A) : M S A :=
  fun s => let '(c, t') := m (proj s) in (c, inj t' s).

(** [error.message]. *)
Definition message_of {S} (error : Thrown) : M S (option string) :=
  match error with
  | ErrorObj m => ret (Some m)
  | NoMessage => ret None
  | Nullish v => throw (TypeError v "message")
  end.

End Js.

Import Js.

#[global] Instance M_ret {S} : MRet (Js.M S) := fun A => @Js.ret S A.
#[global] Instance M_bind {S} : MBind (Js.M S) := fun A B k m => Js.bind m k.

(* ===================================================================== *)
(** ** The payment SDK and [fetch], seen from the harness                *)
(* ===================================================================== *)

Module Sdk.

(** Argument of [new AxraPay({...})]. *)
Record Options : Type := {
  environment : string;
  opt_publishableKey : string;
  opt_sdkToken : string;
  opt_businessId : string
}.

(** An SDK instance; the harness only holds it and calls its methods. *)
Record AxraPay : Type := { options : Options }.

Record PaymentIntentParams : Type := {
  pi_amount : string;
  pi_currency : string;
  pi_businessId : string;
  pi_description : string
}.

(** What [createPaymentIntent] resolves with and what a card form hands
    to [onSuccess]: the harness reads [result.id]. *)
Record PaymentResult : Type := { id : string }.

(** What a token form hands to [onSuccess]: the harness reads
    [result.token.id]. *)
Record TokenResult : Type := { token_id : string }.

Record CustomerData : Type := {
  name : string;
  email : string;
  metadata : list (string * string)
}.

(** Arguments of the two mount calls.  The callback triple is not a
    field: the three closures of a mount are the functions
    [Tester.cardOnSuccess], [Tester.cardOnError], [Tester.cardOnCancel]
    (and their token counterparts) applied to the container the mount
    was asked for. *)
Record CardFormParams : Type := {
  cf_selector : string;
  cf_amount : string;
  cf_currency : string;
  cf_businessId : string;
  cf_customerData : CustomerData;
  cf_description : string;
  cf_style : list (string * string)
}.

Record TokenFormParams : Type := {
  tf_selector : string;
  tf_customerData : CustomerData
}.

Record Request : Type := {
  url : string;
  method : string;
  headers : list (string * string)
}.

Record Response : Type := { ok : bool; status : N }.

(** [fetch] either yields a response or rejects; by the Fetch standard
    the rejection is a TypeError (or a DOMException), which carries a
    message string. *)
Inductive FetchOutcome : Type :=
| Responded (response : Response)
| Rejected (message : string).

(** One invocation of the outside world by the harness. *)
Inductive Call : Type :=
| CallNew (o : Options)
| CallCreatePaymentIntent (sdk : AxraPay) (p : PaymentIntentParams)
| CallMountCardForm (sdk : AxraPay) (p : CardFormParams)
| CallMountTokenForm (sdk : AxraPay) (p : TokenFormParams)
| CallFetch (r : Request).

(** Calls on the SDK, as opposed to [fetch]. *)
Definition is_client_call (c : Call) : bool :=
  match c with CallFetch _ => false | _ => true end.

(** The promise [fetch] returns, as a completion. *)
Definition settle (o : FetchOutcome) : Completion Response :=
  match o with
  | Responded r => Normal r
  | Rejected m => Throw (ErrorObj m)
  end.

(** The answers of the outside world during one operation of the
    harness. *)
Record Environment : Type := {
  new_AxraPay : Options -> Completion unit;
  createPaymentIntent : AxraPay -> PaymentIntentParams -> Completion PaymentResult;
  mountCardForm : AxraPay -> CardFormParams -> Completion unit;
  mountTokenForm : AxraPay -> TokenFormParams -> Completion unit;
  fetch : Request -> FetchOutcome
}.


End Sdk.

(* ===================================================================== *)
(** ** The part of the page the harness reads and writes                 *)
(* ===================================================================== *)

Module Dom.

Inductive FormKind : Type := CardForm | TokenForm.

(** Ids inside the markup that [testCardForm] / [testTokenForm] write
    into a container. *)
Definition formId (k : FormKind) : string :=
  match k with
  | CardForm => "axrapay-card-form"
  | TokenForm => "axrapay-token-form"
  end.

Definition resultId (k : FormKind) : string :=
  match k with
  | CardForm => "cardFormResult"
  | TokenForm => "tokenFormResult"
  end.

(** Content of the element the widget is mounted into.  What the SDK
    itself renders there is not recorded.  [FailureMarkup] is an
    assignment to [innerHTML]: [detail] is interpolated into markup as
    it is, not escaped, and the browser parses the result. *)
Inductive SlotContent : Type :=
| Spinner
| FailureMarkup (title detail : string).

(** Content of the result element.  [TextContent] is an assignment to
    [textContent]: the message is shown as written.  [DetailsMarkup] is
    an assignment to [innerHTML]: [message] and the JSON text of [data]
    are interpolated into markup as they are, and the browser parses
    the result. *)
Inductive ResultContent : Type :=
| NoContent
| TextContent (message : string)
| DetailsMarkup (message summary : string) (data : Sdk.PaymentResult + Sdk.TokenResult).

Definition dq : string := String (ascii_of_nat 34) EmptyString.
Definition nl : string := String (ascii_of_nat 10) EmptyString.

(** [<name class="cls">]. *)
Definition openTag (name cls : string) : string :=
  "<" +:+ name +:+ " class=" +:+ dq +:+ cls +:+ dq +:+ ">".

(** The string a [FailureMarkup] assigns to [formContainer.innerHTML],
    [axrapay.ts] lines 176-182 and 316-322. *)
Definition failureHTML (title detail : string) : string :=
  nl +:+ "            " +:+ openTag "div" "text-center text-red-600 p-4" +:+
  nl +:+ "              " +:+ openTag "div" "text-2xl mb-2" +:+ "❌</div>" +:+
  nl +:+ "              " +:+ openTag "p" "font-medium" +:+ title +:+ "</p>" +:+
  nl +:+ "              " +:+ openTag "p" "text-sm text-red-500 mt-1" +:+ detail +:+ "</p>" +:+
  nl +:+ "            </div>" +:+
  nl +:+ "          ".


(** The result [div]: its class list and its content. *)
Record ResultDiv : Type := {
  className : list string;
  content : ResultContent
}.


(** Content of a mount surface ([container.innerHTML]). *)
Inductive Surface : Type :=
| Placeholder                 (* the paragraph rendered by the page *)
| Blank                       (* [innerHTML = ''] *)
| Template (k : FormKind) (slot : SlotContent) (result : ResultDiv).

(** The document: mount surfaces by element id.  Elements inside a
    surface are reached with [querySelector] on the surface only: the
    ids of the probes' own markup and of what the SDK renders are not
    keys of this map, so the model speaks for container ids that name a
    mount surface or no element at all. *)
Abbreviation Document := (gmap string Surface).

(** The markup written by the two mount probes. *)
Definition initialTemplate (k : FormKind) : Surface :=
  Template k Spinner {| className := ["mt-4"; "hidden"]; content := NoContent |}.

(** [container.querySelector('#' + id)] for the result [div]: [true]
    when the surface holds an element with that id. *)
Definition hasResult (id : string) (s : Surface) : bool :=
  match s with
  | Template k _ _ => String.eqb id (resultId k)
  | _ => false
  end.

Definition hasForm (id : string) (s : Surface) : bool :=
  match s with
  | Template k _ _ => String.eqb id (formId k)
  | _ => false
  end.

(** Writes through an element found by [querySelector]. *)
Definition updateResult (f : ResultDiv -> ResultDiv) (s : Surface) : Surface :=
  match s with
  | Template k slot r => Template k slot (f r)
  | _ => s
  end.

Definition setSlot (c : SlotContent) (s : Surface) : Surface :=
  match s with
  | Template k _ r => Template k c r
  | _ => s
  end.

End Dom.

(* ===================================================================== *)
(** ** [src/lib/axrapay.ts]: class [AxraPayTester]                       *)
(* ===================================================================== *)

Module Tester.
Import Sdk Dom.

Record TestConfig : Type := {
  publishableKey : string;
  businessId : string;
  sdkToken : string
}.

(** The shapes the harness gives to [TestResult.data]. *)
Inductive Data : Type :=
| DataInitialized                                   (* { initialized: true } *)
| DataError (error : option string)                 (* { error: error.message } *)
| DataResult (result : PaymentResult)               (* the payment intent *)
| DataMounted (containerId sdkMethod : string)      (* { mounted: true, containerId, sdkMethod } *)
| DataStatus (status : N).                          (* { status: response.status } *)

Record TestResult : Type := {
  success : bool;
  message : string;
  data : option Data
}.

(** The two private fields of the class. *)
Record AxraPayTester : Type := {
  axraPay : option AxraPay;
  isInitialized : bool
}.

(** [new AxraPayTester()]. *)
Definition new_AxraPayTester : AxraPayTester :=
  {| axraPay := None; isInitialized := false |}.

(** What a method of the class can touch: the instance, the document,
    and the outside world, whose invocations are recorded in order. *)
Record Store : Type := {
  this : AxraPayTester;
  document : Document;
  calls : list Call
}.

Definition set_axraPay (v : option AxraPay) : M Store unit :=
  modify (fun s =>
    {| this := {| axraPay := v; isInitialized := isInitialized (this s) |};
       document := document s; calls := calls s |}).

Definition set_isInitialized (b : bool) : M Store unit :=
  modify (fun s =>
    {| this := {| axraPay := axraPay (this s); isInitialized := b |};
       document := document s; calls := calls s |}).

Definition record (c : Call) : M Store unit :=
  modify (fun s =>
    {| this := this s; document := document s; calls := calls s ++ [c] |}).

(** [document.getElementById(id)]. *)
Definition getElementById (id : string) : M Store (option Surface) :=
  s ← get; mret (document s !! id).

(** A write to the element with this id, if it is in the document. *)
Definition updateElement (id : string) (f : Surface -> Surface) : M Store unit :=
  modify (fun s =>
    {| this := this s; document := alter f id (document s); calls := calls s |}).

(** A completion of the outside world, continued in the harness. *)
Definition await {A} (c : Completion A) : M Store A :=
  match c with
  | Normal a => mret a
  | Throw e => throw e
  end.

Definition gateEnvelope : TestResult :=
  {| success := false; message := "Please initialize the SDK first"; data := None |}.

Definition demoToken : string := "demo-sdk-token-123".

(** The argument [initializeSDK] builds for [new AxraPay], lines 30-35. *)
Definition sdkOptions (config : TestConfig) : Options :=
  {| environment := "development";
     opt_publishableKey := publishableKey config;
     opt_sdkToken := or_else (sdkToken config) demoToken;
     opt_businessId := businessId config |}.

(** The argument of [createPaymentIntent], lines 66-71. *)
Definition intentParams (config : TestConfig) : PaymentIntentParams :=
  {| pi_amount := "29.99"; pi_currency := "USD";
     pi_businessId := businessId config;
     pi_description := "SDK Test Payment" |}.

(** The argument of [mountCardForm], lines 123-163, callbacks apart. *)
Definition cardFormParams (config : TestConfig) (containerId : string) : CardFormParams :=
  {| cf_selector := "#" +:+ containerId +:+ " #axrapay-card-form";
     cf_amount := "29.99"; cf_currency := "USD";
     cf_businessId := businessId config;
     cf_customerData :=
       {| name := "Test User"; email := "test@example.com"; metadata := [] |};
     cf_description := "Test Payment via AxraPay SDK";
     cf_style := [("backgroundColor", "#ffffff"); ("color", "#374151");
                  ("borderRadius", "8px"); ("padding", "16px");
                  ("fontSize", "14px"); ("fontFamily", "Inter, sans-serif")] |}.

(** The argument of [mountTokenForm], lines 263-303, callbacks apart. *)
Definition tokenFormParams (containerId : string) : TokenFormParams :=
  {| tf_selector := "#" +:+ containerId +:+ " #axrapay-token-form";
     tf_customerData :=
       {| name := "Test User"; email := "test@example.com";
          metadata := [("test", "true"); ("source", "sdk-test")] |} |}.

(** The request of the CORS probe, lines 370-376. *)
Definition corsRequest (config : TestConfig) : Request :=
  {| url := "https://dev.gopremium.africa/api/sdk/config?businessId="
            +:+ businessId config;
     method := "GET";
     headers := [("X-AxraPay-Publishable-Key", publishableKey config);
                 ("Authorization", "Bearer " +:+ or_else (sdkToken config) demoToken)] |}.

Section Methods.
Variable env : Environment.

(** [initializeSDK(config)], lines 24-52. *)
Definition initializeSDK (config : TestConfig) : M Store TestResult :=
  try_catch
    (if negb (truthy (publishableKey config)) || negb (truthy (businessId config))
     then throw (ErrorObj "Please provide both publishable key and business ID")
     else
       let o := sdkOptions config in
       record (CallNew o);;
       await (new_AxraPay env o);;
       set_axraPay (Some {| options := o |});;
       set_isInitialized true;;
       mret {| success := true;
               message := "SDK initialized successfully! Business config loaded.";
               data := Some DataInitialized |})
    (fun error =>
       set_isInitialized false;;
       m ← message_of error;
       mret {| success := false;
               message := "SDK initialization failed: " +:+ interpolate m;
               data := Some (DataError m) |}).

(** [testPaymentIntent(config)], lines 57-85.  The guard
    [!this.isInitialized || !this.axraPay] lets through exactly the
    instances with the flag set and a client held. *)
Definition testPaymentIntent (config : TestConfig) : M Store TestResult :=
  s ← get;
  match isInitialized (this s), axraPay (this s) with
  | true, Some sdk =>
      try_catch
        (let p := intentParams config in
         record (CallCreatePaymentIntent sdk p);;
         result ← await (createPaymentIntent env sdk p);
         mret {| success := true;
                 message := "Payment intent created successfully! ID: " +:+ id result;
                 data := Some (DataResult result) |})
        (fun error =>
           m ← message_of error;
           mret {| success := false;
                   message := "Payment intent creation failed: " +:+ interpolate m;
                   data := Some (DataError m) |})
  | _, _ => mret gateEnvelope
  end.

(** The [catch] block shared in shape by the two mount probes: if the
    container and the form element exist, assign the failure markup,
    with [error.message] interpolated, to the form element's
    [innerHTML] ([Dom.failureHTML] is the string); then build the
    envelope. *)
Definition mountFailed (k : FormKind) (containerId title prefix : string)
    (error : Thrown) : M Store TestResult :=
  container ← getElementById containerId;
  match container with
  | Some c =>
      if hasForm (formId k) c
      then m ← message_of error;
           updateElement containerId (setSlot (FailureMarkup title (interpolate m)))
      else mret tt
  | None => mret tt
  end;;
  m ← message_of error;
  mret {| success := false;
          message := prefix +:+ interpolate m;
          data := Some (DataError m) |}.

(** [testCardForm(config, containerId)], lines 90-192. *)
Definition testCardForm (config : TestConfig) (containerId : string)
    : M Store TestResult :=
  s ← get;
  match isInitialized (this s), axraPay (this s) with
  | true, Some sdk =>
      try_catch
        (container ← getElementById containerId;
         match container with
         | None =>
             throw (ErrorObj ("Container with id '" +:+ containerId +:+ "' not found"))
         | Some _ =>
             updateElement containerId (fun _ => initialTemplate CardForm);;
             let p := cardFormParams config containerId in
             record (CallMountCardForm sdk p);;
             await (mountCardForm env sdk p);;
             mret {| success := true;
                     message := "AxraPay card form mounted successfully! Try making a payment.";
                     data := Some (DataMounted containerId "mountCardForm") |}
         end)
        (mountFailed CardForm containerId "Card Form Mounting Failed"
                     "Card form mounting failed: ")
  | _, _ => mret gateEnvelope
  end.

(** [testTokenForm(config, containerId)], lines 226-332. *)
Definition testTokenForm (config : TestConfig) (containerId : string)
    : M Store TestResult :=
  s ← get;
  match isInitialized (this s), axraPay (this s) with
  | true, Some sdk =>
      try_catch
        (container ← getElementById containerId;
         match container with
         | None =>
             throw (ErrorObj ("Container with id '" +:+ containerId +:+ "' not found"))
         | Some _ =>
             updateElement containerId (fun _ => initialTemplate TokenForm);;
             let p := tokenFormParams containerId in
             record (CallMountTokenForm sdk p);;
             await (mountTokenForm env sdk p);;
             mret {| success := true;
                     message := "AxraPay token form mounted successfully! Try creating a token.";
                     data := Some (DataMounted containerId "mountTokenForm") |}
         end)
        (mountFailed TokenForm containerId "Token Form Mounting Failed"
                     "Token form mounting failed: ")
  | _, _ => mret gateEnvelope
  end.

(** [testCORS(config)], lines 368-406.  The handler calls
    [error.message.includes], which itself throws when the message is
    [undefined]. *)
Definition testCORS (config : TestConfig) : M Store TestResult :=
  try_catch
    (let r := corsRequest config in
     record (CallFetch r);;
     response ← await (settle (fetch env r));
     if ok response
     then mret {| success := true;
                  message := "CORS test passed! Cross-origin requests are working correctly.";
                  data := Some (DataStatus (status response)) |}
     else mret {| success := false;
                  message := "CORS test failed - HTTP error: " +:+ pretty (status response);
                  data := Some (DataStatus (status response)) |})
    (fun error =>
       m ← message_of error;
       match m with
       | None => throw (TypeError js_undefined "includes")
       | Some text =>
           if includes "CORS" text || includes "cross-origin" text
           then mret {| success := false;
                        message := "CORS test failed - CORS error: " +:+ text;
                        data := Some (DataError m) |}
           else mret {| success := false;
                        message := "CORS test failed: " +:+ text;
                        data := Some (DataError m) |}
       end).

End Methods.

(** [isSDKInitialized()], lines 411-413. *)
Definition isSDKInitialized (s : Store) : bool := isInitialized (this s).

(** The [type] argument of the two [show...Result] methods. *)
Inductive ResultType : Type := type_success | type_error.

Definition resultClasses (type : ResultType) : list string :=
  ["mt-4"; "p-4"; "rounded-lg"; "border"] ++
  match type with
  | type_success => ["bg-green-50"; "text-green-800"; "border-green-200"]
  | type_error => ["bg-red-50"; "text-red-800"; "border-red-200"]
  end.

(** [container.querySelector('#' + id)] from inside a callback, where
    [container] is the element the mount probe found under
    [containerId].  The result is the element's handle, here the id of
    its container, or [None] for [null]. *)
Definition querySelector (containerId id : string) : M Store (option string) :=
  s ← get;
  mret (match document s !! containerId with
        | Some c => if hasResult id c then Some containerId else None
        | None => None
        end).

(** The body shared by [showCardFormResult] (lines 197-221) and
    [showTokenFormResult] (lines 338-362); they differ in the summary
    line of the details markup.  The success branch assigns to
    [innerHTML] ([Dom.detailsHTML] is the string), the other branch to
    [textContent]. *)
Definition showResult (summary : string) (resultDiv : option string)
    (message : string) (type : ResultType)
    (data : option (PaymentResult + TokenResult)) : M Store unit :=
  match resultDiv with
  | None => mret tt
  | Some el =>
      updateElement el
        (updateResult (fun d => {| className := resultClasses type; content := content d |}));;
      match type, data with
      | type_success, Some d =>
          updateElement el
            (updateResult (fun r =>
               {| className := className r; content := DetailsMarkup message summary d |}))
      | _, _ =>
          updateElement el
            (updateResult (fun r =>
               {| className := className r; content := TextContent message |}))
      end;;
      updateElement el
        (updateResult (fun r =>
           {| className := filter (fun c => c ≠ "hidden") (className r);
              content := content r |}))
  end.

Definition showCardFormResult (resultDiv : option string) (message : string)
    (type : ResultType) (data : option PaymentResult) : M Store unit :=
  showResult "View Payment Details" resultDiv message type (inl <$> data).

Definition showTokenFormResult (resultDiv : option string) (message : string)
    (type : ResultType) (data : option TokenResult) : M Store unit :=
  showResult "View Token Details" resultDiv message type (inr <$> data).

(** The callback triple [testCardForm] hands to [mountCardForm], lines
    133-154.  [error] is the text the template literal makes of the
    value the SDK passes. *)
Definition cardOnSuccess (containerId : string) (result : PaymentResult) : M Store unit :=
  el ← querySelector containerId "cardFormResult";
  showCardFormResult el ("✅ Payment successful! ID: " +:+ id result)
                     type_success (Some result).

Definition cardOnError (containerId : string) (error : string) : M Store unit :=
  el ← querySelector containerId "cardFormResult";
  showCardFormResult el ("❌ Payment failed: " +:+ error) type_error None.

Definition cardOnCancel (containerId : string) : M Store unit :=
  el ← querySelector containerId "cardFormResult";
  showCardFormResult el "⚠️ Payment cancelled by user" type_error None.

(** The callback triple of [testTokenForm], lines 273-294. *)
Definition tokenOnSuccess (containerId : string) (result : TokenResult) : M Store unit :=
  el ← querySelector containerId "tokenFormResult";
  showTokenFormResult el ("✅ Token created successfully! ID: " +:+ token_id result)
                      type_success (Some result).

Definition tokenOnError (containerId : string) (error : string) : M Store unit :=
  el ← querySelector containerId "tokenFormResult";
  showTokenFormResult el ("❌ Token creation failed: " +:+ error) type_error None.

Definition tokenOnCancel (containerId : string) : M Store unit :=
  el ← querySelector containerId "tokenFormResult";
  showTokenFormResult el "⚠️ Token creation cancelled by user" type_error None.

(** What the SDK reports through a callback triple. *)
Inductive Outcome (R : Type) : Type :=
| Succeeded (result : R)
| Failed (error : string)
| Cancelled.
Arguments Succeeded {R} result.
Arguments Failed {R} error.
Arguments Cancelled {R}.

Definition cardCallback (containerId : string) (o : Outcome PaymentResult) : M Store unit :=
  match o with
  | Succeeded r => cardOnSuccess containerId r
  | Failed e => cardOnError containerId e
  | Cancelled => cardOnCancel containerId
  end.

Definition tokenCallback (containerId : string) (o : Outcome TokenResult) : M Store unit :=
  match o with
  | Succeeded r => tokenOnSuccess containerId r
  | Failed e => tokenOnError containerId e
  | Cancelled => tokenOnCancel containerId
  end.

(** Everything that can be asked of an [AxraPayTester]: its five probes
    and the callbacks it has handed out.  The class has no other
    method that writes its fields. *)
Inductive Op : Type :=
| OpInitializeSDK (config : TestConfig)
| OpTestPaymentIntent (config : TestConfig)
| OpTestCardForm (config : TestConfig) (containerId : string)
| OpTestTokenForm (config : TestConfig) (containerId : string)
| OpTestCORS (config : TestConfig)
| OpCardCallback (containerId : string) (o : Outcome PaymentResult)
| OpTokenCallback (containerId : string) (o : Outcome TokenResult).

Definition isInitializeSDK (op : Op) : bool :=
  match op with OpInitializeSDK _ => true | _ => false end.

(** The store after one operation, whatever it returned. *)
Definition step (env : Environment) (op : Op) (s : Store) : Store :=
  match op with
  | OpInitializeSDK c => (initializeSDK env c s).2
  | OpTestPaymentIntent c => (testPaymentIntent env c s).2
  | OpTestCardForm c i => (testCardForm env c i s).2
  | OpTestTokenForm c i => (testTokenForm env c i s).2
  | OpTestCORS c => (testCORS env c s).2
  | OpCardCallback i o => (cardCallback i o s).2
  | OpTokenCallback i o => (tokenCallback i o s).2
  end.

(** A run: operations in order, each with the answers the outside
    world gives while it is in progress. *)
Fixpoint exec (ops : list (Environment * Op)) (s : Store) : Store :=
  match ops with
  | [] => s
  | (env, op) :: rest => exec rest (step env op s)
  end.

End Tester.

(* ===================================================================== *)
(** ** [src/App.tsx]: the page, its log and its result slots             *)
(* ===================================================================== *)

Module App.
Import Sdk Dom.

Inductive LogType : Type := info | success | error.

Record LogEntry : Type := {
  timestamp : string;
  message : string;
  type : LogType
}.

(** The [results] state: one slot per probe. *)
Record Results : Type := {
  init : option Tester.TestResult;
  payment : option Tester.TestResult;
  cardForm : option Tester.TestResult;
  tokenForm : option Tester.TestResult;
  cors : option Tester.TestResult
}.

(** The component's state.  [tester] holds the [AxraPayTester] created
    once by [useState], together with the document and the record of
    outside calls its methods work on. *)
Record State : Type := {
  config : Tester.TestConfig;
  tester : Tester.Store;
  logs : list LogEntry;
  results : Results
}.

Definition noResults : Results :=
  {| init := None; payment := None; cardForm := None; tokenForm := None; cors := None |}.

(** The state at first render: the default configuration and the two
    mount surfaces with their placeholder paragraphs. *)
Definition initialState : State :=
  {| config := {| Tester.publishableKey := "pk_test_demo_key";
                  Tester.businessId := "demo-business-123";
                  Tester.sdkToken := EmptyString |};
     tester := {| Tester.this := Tester.new_AxraPayTester;
                  Tester.document :=
                    <["cardFormContainer" := Placeholder]>
                      (<["tokenFormContainer" := Placeholder]> ∅);
                  Tester.calls := [] |};
     logs := [];
     results := noResults |}.

(** A method of the tester, run from the page. *)
Definition onTester {A} (m : M Tester.Store A) : M State A :=
  zoom tester
       (fun t s => {| config := config s; tester := t; logs := logs s; results := results s |})
       m.

(** [setLogs(f)] and [setResults(f)], functional updates. *)
Definition setLogs (f : list LogEntry -> list LogEntry) : M State unit :=
  modify (fun s =>
    {| config := config s; tester := tester s; logs := f (logs s); results := results s |}).

Definition setResults (f : Results -> Results) : M State unit :=
  modify (fun s =>
    {| config := config s; tester := tester s; logs := logs s; results := f (results s) |}).

Definition setConfig (f : Tester.TestConfig -> Tester.TestConfig) : M State unit :=
  modify (fun s =>
    {| config := f (config s); tester := tester s; logs := logs s; results := results s |}).

Definition with_init (v : option Tester.TestResult) (r : Results) : Results :=
  {| init := v; payment := payment r; cardForm := cardForm r;
     tokenForm := tokenForm r; cors := cors r |}.
Definition with_payment (v : option Tester.TestResult) (r : Results) : Results :=
  {| init := init r; payment := v; cardForm := cardForm r;
     tokenForm := tokenForm r; cors := cors r |}.
Definition with_cardForm (v : option Tester.TestResult) (r : Results) : Results :=
  {| init := init r; payment := payment r; cardForm := v;
     tokenForm := tokenForm r; cors := cors r |}.
Definition with_tokenForm (v : option Tester.TestResult) (r : Results) : Results :=
  {| init := init r; payment := payment r; cardForm := cardForm r;
     tokenForm := v; cors := cors r |}.
Definition with_cors (v : option Tester.TestResult) (r : Results) : Results :=
  {| init := init r; payment := payment r; cardForm := cardForm r;
     tokenForm := tokenForm r; cors := v |}.

(** [addLog(message, type)], lines 36-39.  [now] is the text
    [new Date().toISOString().substr(11, 12)] evaluates to. *)
Definition addLog (now : string) (message : string) (type : LogType) : M State unit :=
  setLogs (fun prev => prev ++ [{| timestamp := now; message := message; type := type |}]).

(** [clearLogs()], lines 41-43. *)
Definition clearLogs : M State unit := setLogs (fun _ => []).

(** An envelope the page builds itself: no [data]. *)
Definition envelope (ok : bool) (message : string) : Tester.TestResult :=
  {| Tester.success := ok; Tester.message := message; Tester.data := None |}.

(** [result.data?.id]. *)
Definition data_id (d : option Tester.Data) : option string :=
  match d with
  | Some (Tester.DataResult r) => Some (id r)
  | _ => None
  end.

Section Handlers.
Variable env : Environment.
(** The clock readings of the handler's first and second [addLog]. *)
Variables t0 t1 : string.

(** [testSDKInitialization], lines 45-66. *)
Definition testSDKInitialization : M State unit :=
  addLog t0 "Starting SDK initialization test..." info;;
  setResults (with_init None);;
  try_catch
    (s ← get;
     result ← onTester (Tester.initializeSDK env (config s));
     setResults (with_init (Some result));;
     if Tester.success result
     then addLog t1 "SDK initialized successfully!" success
     else addLog t1 ("SDK initialization failed: " +:+ Tester.message result) error)
    (fun e =>
       m ← message_of e;
       let errorResult := envelope false ("SDK initialization failed: " +:+ interpolate m) in
       setResults (with_init (Some errorResult));;
       addLog t1 ("SDK initialization failed: " +:+ interpolate m) error).

(** [testPaymentIntent], lines 68-97. *)
Definition testPaymentIntent : M State unit :=
  s ← get;
  if negb (Tester.isSDKInitialized (tester s))
  then setResults (with_payment (Some (envelope false "Please initialize the SDK first")))
  else
    addLog t0 "Testing payment intent creation..." info;;
    setResults (with_payment None);;
    try_catch
      (result ← onTester (Tester.testPaymentIntent env (config s));
       setResults (with_payment (Some result));;
       if Tester.success result
       then addLog t1 ("Payment intent created: "
                       +:+ interpolate (data_id (Tester.data result))) success
       else addLog t1 ("Payment intent creation failed: " +:+ Tester.message result) error)
      (fun e =>
         m ← message_of e;
         let errorResult :=
           envelope false ("Payment intent creation failed: " +:+ interpolate m) in
         setResults (with_payment (Some errorResult));;
         addLog t1 ("Payment intent creation failed: " +:+ interpolate m) error).

(** [testCardForm], lines 99-128. *)
Definition testCardForm : M State unit :=
  s ← get;
  if negb (Tester.isSDKInitialized (tester s))
  then setResults (with_cardForm (Some (envelope false "Please initialize the SDK first")))
  else
    addLog t0 "Testing card form mounting..." info;;
    setResults (with_cardForm None);;
    try_catch
      (result ← onTester (Tester.testCardForm env (config s) "cardFormContainer");
       setResults (with_cardForm (Some result));;
       if Tester.success result
       then addLog t1 "Card form mounted successfully!" success
       else addLog t1 ("Card form mounting failed: " +:+ Tester.message result) error)
      (fun e =>
         m ← message_of e;
         let errorResult :=
           envelope false ("Card form mounting failed: " +:+ interpolate m) in
         setResults (with_cardForm (Some errorResult));;
         addLog t1 ("Card form mounting failed: " +:+ interpolate m) error).

(** [testTokenForm], lines 130-159. *)
Definition testTokenForm : M State unit :=
  s ← get;
  if negb (Tester.isSDKInitialized (tester s))
  then setResults (with_tokenForm (Some (envelope false "Please initialize the SDK first")))
  else
    addLog t0 "Testing token form mounting..." info;;
    setResults (with_tokenForm None);;
    try_catch
      (result ← onTester (Tester.testTokenForm env (config s) "tokenFormContainer");
       setResults (with_tokenForm (Some result));;
       if Tester.success result
       then addLog t1 "Token form mounted successfully!" success
       else addLog t1 ("Token form mounting failed: " +:+ Tester.message result) error)
      (fun e =>
         m ← message_of e;
         let errorResult :=
           envelope false ("Token form mounting failed: " +:+ interpolate m) in
         setResults (with_tokenForm (Some errorResult));;
         addLog t1 ("Token form mounting failed: " +:+ interpolate m) error).

(** [testCORS], lines 161-182. *)
Definition testCORS : M State unit :=
  addLog t0 "Testing CORS headers..." info;;
  setResults (with_cors None);;
  try_catch
    (s ← get;
     result ← onTester (Tester.testCORS env (config s));
     setResults (with_cors (Some result));;
     if Tester.success result
     then addLog t1 "CORS test passed - Cross-origin request successful!" success
     else addLog t1 ("CORS test failed: " +:+ Tester.message result) error)
    (fun e =>
       m ← message_of e;
       let errorResult := envelope false ("CORS test failed: " +:+ interpolate m) in
       setResults (with_cors (Some errorResult));;
       addLog t1 ("CORS test failed: " +:+ interpolate m) error).

End Handlers.

(** The two clear buttons, lines 283-287 and 316-320:
    [if (container) container.innerHTML = ''] and one log line. *)
Definition clearCardForm (now : string) : M State unit :=
  onTester (Tester.updateElement "cardFormContainer" (fun _ => Blank));;
  addLog now "Card form cleared" info.

Definition clearTokenForm (now : string) : M State unit :=
  onTester (Tester.updateElement "tokenFormContainer" (fun _ => Blank));;
  addLog now "Token form cleared" info.

(** The SDK invoking a callback of a mounted form.  The closures were
    made inside [AxraPayTester]: they reach the document through the
    tester and have no access to [addLog] or [setResults]. *)
Definition deliverCard (containerId : string) (o : Tester.Outcome PaymentResult)
    : M State unit :=
  onTester (Tester.cardCallback containerId o).

Definition deliverToken (containerId : string) (o : Tester.Outcome TokenResult)
    : M State unit :=
  onTester (Tester.tokenCallback containerId o).

(** The five probes of the page. *)
Inductive Probe : Type :=
| InitProbe | PaymentProbe | CardProbe | TokenProbe | CorsProbe.

(** The button handler of a probe. *)
Definition handler (env : Environment) (t0 t1 : string) (p : Probe) : M State unit :=
  match p with
  | InitProbe => testSDKInitialization env t0 t1
  | PaymentProbe => testPaymentIntent env t0 t1
  | CardProbe => testCardForm env t0 t1
  | TokenProbe => testTokenForm env t0 t1
  | CorsProbe => testCORS env t0 t1
  end.

(** The tester method a handler awaits. *)
Definition probe (env : Environment) (p : Probe) (c : Tester.TestConfig)
    : M Tester.Store Tester.TestResult :=
  match p with
  | InitProbe => Tester.initializeSDK env c
  | PaymentProbe => Tester.testPaymentIntent env c
  | CardProbe => Tester.testCardForm env c "cardFormContainer"
  | TokenProbe => Tester.testTokenForm env c "tokenFormContainer"
  | CorsProbe => Tester.testCORS env c
  end.

(** The result slot of a probe. *)
Definition slot (p : Probe) (r : Results) : option Tester.TestResult :=
  match p with
  | InitProbe => init r
  | PaymentProbe => payment r
  | CardProbe => cardForm r
  | TokenProbe => tokenForm r
  | CorsProbe => cors r
  end.

(** The handlers that check [tester.isSDKInitialized()] first. *)
Definition dependent (p : Probe) : bool :=
  match p with
  | InitProbe | CorsProbe => false
  | PaymentProbe | CardProbe | TokenProbe => true
  end.

(** The texts the handlers log. *)
Definition startText (p : Probe) : string :=
  match p with
  | InitProbe => "Starting SDK initialization test..."
  | PaymentProbe => "Testing payment intent creation..."
  | CardProbe => "Testing card form mounting..."
  | TokenProbe => "Testing token form mounting..."
  | CorsProbe => "Testing CORS headers..."
  end.

Definition failurePrefix (p : Probe) : string :=
  match p with
  | InitProbe => "SDK initialization failed: "
  | PaymentProbe => "Payment intent creation failed: "
  | CardProbe => "Card form mounting failed: "
  | TokenProbe => "Token form mounting failed: "
  | CorsProbe => "CORS test failed: "
  end.

Definition successText (p : Probe) (r : Tester.TestResult) : string :=
  match p with
  | InitProbe => "SDK initialized successfully!"
  | PaymentProbe => "Payment intent created: " +:+ interpolate (data_id (Tester.data r))
  | CardProbe => "Card form mounted successfully!"
  | TokenProbe => "Token form mounted successfully!"
  | CorsProbe => "CORS test passed - Cross-origin request successful!"
  end.

End App.

(* ===================================================================== *)
(** ** Sample worlds and inputs                                          *)
(* ===================================================================== *)

Module Samples.
Import Sdk.

(** An outside world in which every call succeeds. *)
Definition quietEnv : Environment :=
  {| new_AxraPay := fun _ => Normal tt;
     createPaymentIntent := fun _ _ => Normal {| id := "pi_123" |};
     mountCardForm := fun _ _ => Normal tt;
     mountTokenForm := fun _ _ => Normal tt;
     fetch := fun _ => Responded {| ok := true; status := 200 |} |}.

(** The SDK constructor throws an Error. *)
Definition refusingEnv : Environment :=
  {| new_AxraPay := fun _ => Throw (ErrorObj "Invalid publishable key");
     createPaymentIntent := createPaymentIntent quietEnv;
     mountCardForm := mountCardForm quietEnv;
     mountTokenForm := mountTokenForm quietEnv;
     fetch := fetch quietEnv |}.


(** [fetch] answers, or fails, in a fixed way. *)
Definition fetchEnv (o : FetchOutcome) : Environment :=
  {| new_AxraPay := new_AxraPay quietEnv;
     createPaymentIntent := createPaymentIntent quietEnv;
     mountCardForm := mountCardForm quietEnv;
     mountTokenForm := mountTokenForm quietEnv;
     fetch := fun _ => o |}.

Definition goodConfig : Tester.TestConfig := App.config App.initialState.

Definition noKeyConfig : Tester.TestConfig :=
  {| Tester.publishableKey := EmptyString; Tester.businessId := "b1"; Tester.sdkToken := EmptyString |}.

(** The tester and the page as first rendered. *)
Definition freshStore : Tester.Store := App.tester App.initialState.

(** The tester after one successful [initializeSDK]. *)
Definition readyStore : Tester.Store :=
  Tester.step quietEnv (Tester.OpInitializeSDK goodConfig) freshStore.

(** The page after "Test SDK Initialization" and "Mount Card Form",
    both successful. *)
Definition mountedPage : App.State :=
  (App.testCardForm quietEnv "10:00:01.000" "10:00:01.500"
     (App.testSDKInitialization quietEnv "10:00:00.000" "10:00:00.250"
        App.initialState).2).2.

End Samples.

(* ===================================================================== *)
(** ** [src/components]: what the page shows                             *)
(* ===================================================================== *)

Module View.

(** [getLogIcon(type)], [TestLogs.tsx] lines 23-29. *)
Definition getLogIcon (type : App.LogType) : string :=
  match type with
  | App.success => "✅"
  | App.error => "❌"
  | _ => "ℹ️"
  end.

(** [getLogColor(type)], [TestLogs.tsx] lines 31-37. *)
Definition getLogColor (type : App.LogType) : string :=
  match type with
  | App.success => "text-green-400"
  | App.error => "text-red-400"
  | _ => "text-blue-400"
  end.

(** One rendered log line: [[timestamp]], the coloured icon, the
    message; [key] is the index in the log. *)
Record LogRow : Type := {
  key : nat;
  stamp : string;
  color : string;
  icon : string;
  text : string
}.

(** The log pane of [TestLogs], lines 51-66. *)
Inductive LogPane : Type :=
| EmptyNotice (notice : string)
| LogRows (rows : list LogRow).

Definition logRow (index : nat) (log : App.LogEntry) : LogRow :=
  {| key := index;
     stamp := "[" +:+ App.timestamp log +:+ "]";
     color := getLogColor (App.type log);
     icon := getLogIcon (App.type log);
     text := App.message log |}.

(** [TestLogs({ logs })]. *)
Definition TestLogs (logs : list App.LogEntry) : LogPane :=
  if Nat.eqb (length logs) 0
  then EmptyNotice "Ready to test..."
  else LogRows (imap logRow logs).

(** The panel of [TestResult.tsx]: its class string, the class of the
    status dot, the message, and the details section when there is
    one. *)
Record ResultPanel : Type := {
  panelClass : string;
  dotClass : string;
  panelText : string;
  details : option Tester.Data
}.

(** [TestResult({ result, className })], [TestResult.tsx] lines 12-37;
    [None] is [null], nothing rendered.  Every [data] the harness
    builds is an object, hence truthy. *)
Definition TestResult (result : option Tester.TestResult) (className : string)
    : option ResultPanel :=
  match result with
  | None => None
  | Some r =>
      let resultClass :=
        if Tester.success r
        then "bg-green-50 text-green-800 border-green-200"
        else "bg-red-50 text-red-800 border-red-200" in
      Some {| panelClass := "p-4 rounded-lg border " +:+ resultClass +:+ " " +:+ className;
              dotClass := "w-2 h-2 rounded-full mr-2 "
                          +:+ (if Tester.success r then "bg-green-400" else "bg-red-400");
              panelText := Tester.message r;
              details := Tester.data r |}
  end.

End View.

(* ===================================================================== *)
(** ** [src/App.tsx]: the rendered page and what can happen on it        *)
(* ===================================================================== *)

Module Page.
Import Sdk Dom.

(** The [disabled] attribute of a probe's button, lines 261, 277, 310;
    the initialization and CORS buttons have none. *)
Definition buttonDisabled (p : App.Probe) (st : App.State) : bool :=
  match p with
  | App.PaymentProbe | App.CardProbe | App.TokenProbe =>
      negb (Tester.isSDKInitialized (App.tester st))
  | App.InitProbe | App.CorsProbe => false
  end.

(** [<TestResultComponent result={results.x} className="mt-4" />]. *)
Definition resultPanel (p : App.Probe) (st : App.State) : option View.ResultPanel :=
  View.TestResult (App.slot p (App.results st)) "mt-4".

(** [<TestLogs logs={logs} onClearLogs={clearLogs} />], line 350. *)
Definition logPane (st : App.State) : View.LogPane := View.TestLogs (App.logs st).

(** The three inputs of the configuration section, lines 203-235. *)
Definition editPublishableKey (value : string) : M App.State unit :=
  App.setConfig (fun prev =>
    {| Tester.publishableKey := value;
       Tester.businessId := Tester.businessId prev;
       Tester.sdkToken := Tester.sdkToken prev |}).

Definition editBusinessId (value : string) : M App.State unit :=
  App.setConfig (fun prev =>
    {| Tester.publishableKey := Tester.publishableKey prev;
       Tester.businessId := value;
       Tester.sdkToken := Tester.sdkToken prev |}).

Definition editSdkToken (value : string) : M App.State unit :=
  App.setConfig (fun prev =>
    {| Tester.publishableKey := Tester.publishableKey prev;
       Tester.businessId := Tester.businessId prev;
       Tester.sdkToken := value |}).

(** Everything that can happen on the page: a button, an input, or the
    SDK calling back into a form the page mounted.  The page mounts the
    card form into ["cardFormContainer"] and the token form into
    ["tokenFormContainer"] only. *)
Inductive Event : Type :=
| Click (p : App.Probe)
| ClickClearCardForm
| ClickClearTokenForm
| ClickClearLogs
| EditPublishableKey (value : string)
| EditBusinessId (value : string)
| EditSdkToken (value : string)
| CardOutcome (o : Tester.Outcome PaymentResult)
| TokenOutcome (o : Tester.Outcome TokenResult).

(** An event together with the answers of the outside world and the
    clock readings while it is handled. *)
Record Occurrence : Type := {
  world : Environment;
  clock0 : string;
  clock1 : string;
  event : Event
}.

Definition fire (o : Occurrence) : M App.State unit :=
  match event o with
  | Click p => App.handler (world o) (clock0 o) (clock1 o) p
  | ClickClearCardForm => App.clearCardForm (clock0 o)
  | ClickClearTokenForm => App.clearTokenForm (clock0 o)
  | ClickClearLogs => App.clearLogs
  | EditPublishableKey v => editPublishableKey v
  | EditBusinessId v => editBusinessId v
  | EditSdkToken v => editSdkToken v
  | CardOutcome r => App.deliverCard "cardFormContainer" r
  | TokenOutcome r => App.deliverToken "tokenFormContainer" r
  end.

(** The page after a sequence of events, from a given state. *)
Fixpoint run (os : list Occurrence) (st : App.State) : App.State :=
  match os with
  | [] => st
  | o :: rest => run rest (fire o st).2
  end.

Definition isClearLogs (e : Event) : bool :=
  match e with ClickClearLogs => true | _ => false end.

End Page.

(* ===================================================================== *)
(** ** Conditions on stores                                              *)
(* ===================================================================== *)

Module Inv.
Import Sdk Dom.

(** The readiness flag is only set while a client is held. *)
Definition flagHasClient (s : Tester.Store) : Prop :=
  Tester.isInitialized (Tester.this s) = true ->
  Tester.axraPay (Tester.this s) <> None.

(** The options a held client was constructed with. *)
Definition clientOptions (s : Tester.Store) : option Options :=
  options <$> Tester.axraPay (Tester.this s).

(** Options as [initializeSDK] can pass them: development environment
    and no empty credential. *)
Definition wellFormed (o : Options) : bool :=
  String.eqb (environment o) "development"
  && truthy (opt_publishableKey o)
  && truthy (opt_businessId o)
  && truthy (opt_sdkToken o).

Definition clientWellFormed (s : Tester.Store) : Prop :=
  forall o, clientOptions s = Some o -> wellFormed o = true.

(** The card surface never holds the token form's markup, nor the token
    surface the card form's. *)
Definition surfaceFits (k : FormKind) (c : option Surface) : bool :=
  match c with
  | Some (Template k' _ _) =>
      match k, k' with
      | CardForm, CardForm | TokenForm, TokenForm => true
      | _, _ => false
      end
  | Some _ => true
  | None => false
  end.

Definition pageSurfaces (s : Tester.Store) : Prop :=
  surfaceFits CardForm (Tester.document s !! "cardFormContainer") = true /\
  surfaceFits TokenForm (Tester.document s !! "tokenFormContainer") = true.

End Inv.

Module Scenarios.
Import Sdk Samples.

(** [createPaymentIntent] is rejected with an Error. *)
Definition decliningEnv : Environment :=
  {| new_AxraPay := new_AxraPay quietEnv;
     createPaymentIntent := fun _ _ => Throw (ErrorObj "Insufficient permissions");
     mountCardForm := fun _ _ => Throw (ErrorObj "Iframe blocked");
     mountTokenForm := fun _ _ => Throw (ErrorObj "Iframe blocked");
     fetch := fetch quietEnv |}.

(** Every SDK call throws [null] or [undefined]. *)
Definition hostileEnv : Environment :=
  {| new_AxraPay := fun _ => Throw (Nullish js_undefined);
     createPaymentIntent := fun _ _ => Throw (Nullish js_null);
     mountCardForm := fun _ _ => Throw (Nullish js_null);
     mountTokenForm := fun _ _ => Throw (Nullish js_undefined);
     fetch := fun _ => Rejected "Failed to fetch" |}.

Definition occur (env : Environment) (e : Page.Event) : Page.Occurrence :=
  {| Page.world := env; Page.clock0 := "12:00:00.000";
     Page.clock1 := "12:00:00.100"; Page.event := e |}.

(** The page after a successful initialization. *)
Definition readyPage : App.State :=
  Page.run [occur quietEnv (Page.Click App.InitProbe)] App.initialState.

End Scenarios.

(* ===================================================================== *)
(** ** Properties                                                        *)
(* ===================================================================== *)

Import Sdk Dom Samples.

(** Unfold the monad, leaving string concatenation and decimal printing
    folded. *)
Ltac js_simpl :=
  repeat (cbn -[String.append pretty] in *;
          unfold mbind, mret, M_bind, M_ret, Js.bind, Js.ret, Js.try_catch, Js.throw,
                 Js.get, Js.modify, Js.zoom in * ).

(** Split on what the code branches on, innermost test first. *)
Ltac js_case :=
  match goal with
  | |- context [match ?x with _ => _ end] =>
      lazymatch x with
      | context [match _ with _ => _ end] => fail
      | _ => destruct x eqn:?
      end
  end; js_simpl.

(** Expose the bodies of the tester's methods and helpers. *)
Ltac tester_unfold :=
  unfold Tester.step, Tester.initializeSDK, Tester.testPaymentIntent, Tester.testCardForm,
         Tester.testTokenForm, Tester.testCORS, Tester.mountFailed,
         Tester.cardCallback, Tester.tokenCallback,
         Tester.cardOnSuccess, Tester.cardOnError, Tester.cardOnCancel,
         Tester.tokenOnSuccess, Tester.tokenOnError, Tester.tokenOnCancel,
         Tester.showCardFormResult, Tester.showTokenFormResult, Tester.showResult,
         Tester.querySelector, Tester.getElementById, Tester.updateElement,
         Tester.record, Tester.set_axraPay, Tester.set_isInitialized,
         Tester.await, settle, message_of in *;
  js_simpl.

(** Expose the bodies of the page's handlers. *)
Ltac app_unfold :=
  unfold App.handler, App.probe, App.testSDKInitialization, App.testPaymentIntent,
         App.testCardForm, App.testTokenForm, App.testCORS,
         App.clearCardForm, App.clearTokenForm, App.deliverCard, App.deliverToken,
         App.addLog, App.clearLogs, App.setResults, App.setLogs, App.onTester,
         message_of in *;
  js_simpl.

(** Expose the page's events as well. *)
Ltac page_unfold :=
  unfold Page.fire, Page.editPublishableKey, Page.editBusinessId, Page.editSdkToken,
         App.setConfig in *;
  app_unfold.

(** Name the completion and the store the awaited tester method yields. *)
Ltac split_probe :=
  match goal with
  | |- context [Tester.initializeSDK ?a ?b ?c] =>
      destruct (Tester.initializeSDK a b c) as [[r|e] ts'] eqn:Hrun
  | |- context [Tester.testPaymentIntent ?a ?b ?c] =>
      destruct (Tester.testPaymentIntent a b c) as [[r|e] ts'] eqn:Hrun
  | |- context [Tester.testCardForm ?a ?b ?i ?c] =>
      destruct (Tester.testCardForm a b i c) as [[r|e] ts'] eqn:Hrun
  | |- context [Tester.testTokenForm ?a ?b ?i ?c] =>
      destruct (Tester.testTokenForm a b i c) as [[r|e] ts'] eqn:Hrun
  | |- context [Tester.testCORS ?a ?b ?c] =>
      destruct (Tester.testCORS a b c) as [[r|e] ts'] eqn:Hrun
  end; js_simpl.

(** *** Strings *)

Lemma startsWith_refl (s : string) : startsWith s s = true.
Proof.
  induction s as [|c s IH]; simpl; [reflexivity|].
  rewrite Ascii.eqb_refl. exact IH.
Qed.

Lemma includes_refl (s : string) : includes s s = true.
Proof. destruct s; simpl; rewrite ?Ascii.eqb_refl, ?startsWith_refl; reflexivity. Qed.

Lemma includes_append_l (needle before hay : string) :
  includes needle hay = true -> includes needle (before +:+ hay) = true.
Proof.
  intros H. induction before as [|c before IH]; simpl; [exact H|].
  rewrite IH. apply orb_true_r.
Qed.

Lemma includes_suffix (before s : string) : includes s (before +:+ s) = true.
Proof. apply includes_append_l, includes_refl. Qed.

Lemma startsWith_append (s rest : string) : startsWith s (s +:+ rest) = true.
Proof.
  induction s as [|c s IH]; simpl; [reflexivity|].
  rewrite Ascii.eqb_refl. exact IH.
Qed.

Lemma includes_prefix (s rest : string) : includes s (s +:+ rest) = true.
Proof.
  destruct s as [|c s]; [destruct rest; reflexivity|].
  simpl. rewrite Ascii.eqb_refl, startsWith_append. reflexivity.
Qed.

(** Find an interpolated text in the markup it was interpolated into. *)
Ltac find_interpolated :=
  repeat first [apply includes_prefix | apply includes_append_l].

(** *** The gate *)

Lemma gate_short_circuit (env : Environment) (config : Tester.TestConfig)
    (containerId : string) (s : Tester.Store) :
  Tester.isInitialized (Tester.this s) = false ->
  Tester.testPaymentIntent env config s = (Normal Tester.gateEnvelope, s) /\
  Tester.testCardForm env config containerId s = (Normal Tester.gateEnvelope, s) /\
  Tester.testTokenForm env config containerId s = (Normal Tester.gateEnvelope, s).
Proof.
  intros H.
  unfold Tester.testPaymentIntent, Tester.testCardForm, Tester.testTokenForm.
  js_simpl. rewrite H. auto.
Qed.

(** C1.  A dependent probe called while [isSDKInitialized()] is false
    resolves with [{success: false, message: "Please initialize the SDK
    first"}] and leaves the store as it was: the instance, the document
    and the record of outside calls are unchanged, so no method of the
    client was invoked. *)
Theorem dependent_probe_gated (env : Environment) (config : Tester.TestConfig)
    (containerId : string) (s : Tester.Store) :
  Tester.isSDKInitialized s = false ->
  Tester.testPaymentIntent env config s
    = (Normal {| Tester.success := false;
                 Tester.message := "Please initialize the SDK first";
                 Tester.data := None |}, s) /\
  Tester.testCardForm env config containerId s
    = (Normal {| Tester.success := false;
                 Tester.message := "Please initialize the SDK first";
                 Tester.data := None |}, s) /\
  Tester.testTokenForm env config containerId s
    = (Normal {| Tester.success := false;
                 Tester.message := "Please initialize the SDK first";
                 Tester.data := None |}, s).
Proof. intros H. apply gate_short_circuit. exact H. Qed.

Lemma dependent_probe_gated_witness :
  Tester.isSDKInitialized freshStore = false /\
  Tester.testPaymentIntent quietEnv goodConfig freshStore
    = (Normal Tester.gateEnvelope, freshStore) /\
  Tester.testCardForm quietEnv goodConfig "cardFormContainer" freshStore
    = (Normal Tester.gateEnvelope, freshStore) /\
  Tester.testTokenForm quietEnv goodConfig "cardFormContainer" freshStore
    = (Normal Tester.gateEnvelope, freshStore).
Proof.
  split; [reflexivity|].
  apply (dependent_probe_gated quietEnv goodConfig "cardFormContainer" freshStore).
  reflexivity.
Defined.

(** *** Initialization *)

(** C2.  When the publishable key or the business id is empty,
    [initializeSDK] resolves with a [success: false] envelope whose
    message mentions the publishable key; the SDK constructor is not
    called, the client handle is not replaced, and afterwards
    [isSDKInitialized()] is false. *)
Theorem initializeSDK_missing_credentials (env : Environment)
    (config : Tester.TestConfig) (s : Tester.Store) :
  Tester.publishableKey config = EmptyString \/ Tester.businessId config = EmptyString ->
  exists r s',
    Tester.initializeSDK env config s = (Normal r, s') /\
    Tester.success r = false /\
    includes "publishable key" (Tester.message r) = true /\
    Tester.calls s' = Tester.calls s /\
    Tester.axraPay (Tester.this s') = Tester.axraPay (Tester.this s) /\
    Tester.isSDKInitialized s' = false.
Proof.
  intros H. unfold Tester.initializeSDK.
  assert (G : negb (truthy (Tester.publishableKey config))
              || negb (truthy (Tester.businessId config)) = true).
  { destruct H as [-> | ->]; cbn; [reflexivity | apply orb_true_r]. }
  js_simpl. rewrite G. js_simpl.
  eexists _, _. split; [reflexivity|]. cbn. repeat split; reflexivity.
Qed.

Lemma initializeSDK_missing_credentials_witness :
  exists r s',
    Tester.initializeSDK quietEnv noKeyConfig readyStore = (Normal r, s') /\
    Tester.success r = false /\
    includes "publishable key" (Tester.message r) = true /\
    Tester.calls s' = Tester.calls readyStore /\
    Tester.axraPay (Tester.this s') = Tester.axraPay (Tester.this readyStore) /\
    Tester.isSDKInitialized s' = false.
Proof.
  apply (initializeSDK_missing_credentials quietEnv noKeyConfig readyStore).
  left. reflexivity.
Defined.

(** Whenever [initializeSDK] resolves, the readiness flag equals the
    [success] field of the envelope. *)
Lemma initializeSDK_flag (env : Environment) (config : Tester.TestConfig)
    (s s' : Tester.Store) (r : Tester.TestResult) :
  Tester.initializeSDK env config s = (Normal r, s') ->
  Tester.isInitialized (Tester.this s') = Tester.success r.
Proof.
  tester_unfold.
  repeat js_case; intros [= <- <-]; reflexivity.
Qed.

(** No operation other than [initializeSDK] writes the instance. *)
Lemma step_keeps_instance (env : Environment) (op : Tester.Op) (s : Tester.Store) :
  Tester.isInitializeSDK op = false ->
  Tester.this (Tester.step env op s) = Tester.this s.
Proof.
  destruct op as [c|c|c i|c i|c|i o|i o]; intros H; try discriminate H; clear H;
    tester_unfold; repeat js_case; reflexivity.
Qed.

Lemma exec_keeps_instance (ops : list (Environment * Tester.Op)) (s : Tester.Store) :
  forallb (fun eo => negb (Tester.isInitializeSDK eo.2)) ops = true ->
  Tester.this (Tester.exec ops s) = Tester.this s.
Proof.
  revert s. induction ops as [|[env op] ops IH]; intros s H; simpl in *; [reflexivity|].
  apply andb_prop in H as [Hop Hops].
  rewrite IH by exact Hops.
  apply step_keeps_instance. now apply negb_true_iff in Hop.
Qed.

(** C10.  After an [initializeSDK] that resolves with [success: false],
    [isSDKInitialized()] is false, whatever it was before, and each
    dependent probe answers with the gate envelope without touching the
    store. *)
Theorem failed_initializeSDK_revokes_readiness (env : Environment)
    (config : Tester.TestConfig) (s s' : Tester.Store) (r : Tester.TestResult) :
  Tester.initializeSDK env config s = (Normal r, s') ->
  Tester.success r = false ->
  Tester.isSDKInitialized s' = false /\
  forall env' config' containerId,
    Tester.testPaymentIntent env' config' s' = (Normal Tester.gateEnvelope, s') /\
    Tester.testCardForm env' config' containerId s' = (Normal Tester.gateEnvelope, s') /\
    Tester.testTokenForm env' config' containerId s' = (Normal Tester.gateEnvelope, s').
Proof.
  intros Hrun Hfail.
  assert (Hflag : Tester.isInitialized (Tester.this s') = false).
  { rewrite (initializeSDK_flag _ _ _ _ _ Hrun). exact Hfail. }
  split; [exact Hflag|].
  intros env' config' containerId. apply gate_short_circuit. exact Hflag.
Qed.

Lemma failed_initializeSDK_revokes_readiness_witness :
  Tester.isSDKInitialized readyStore = true /\
  Tester.isSDKInitialized
    (Tester.step refusingEnv (Tester.OpInitializeSDK goodConfig) readyStore) = false.
Proof.
  split; [reflexivity|].
  apply (failed_initializeSDK_revokes_readiness refusingEnv goodConfig readyStore
           (Tester.step refusingEnv (Tester.OpInitializeSDK goodConfig) readyStore)
           {| Tester.success := false;
              Tester.message := "SDK initialization failed: Invalid publishable key";
              Tester.data := Some (Tester.DataError (Some "Invalid publishable key")) |});
    reflexivity.
Defined.

(** C6, as the harness has it.  After an [initializeSDK] that resolves
    with [success: true], [isSDKInitialized()] is true; it stays true
    through every run of the other operations (the four other probes and
    the widget callbacks); and after a later [initializeSDK] it equals
    that call's [success], so a failing one makes it false.
    [AxraPayTester] has no reset operation. *)
Theorem initialized_until_initializeSDK_fails (env : Environment)
    (config : Tester.TestConfig) (s s' : Tester.Store) (r : Tester.TestResult) :
  Tester.initializeSDK env config s = (Normal r, s') ->
  Tester.success r = true ->
  Tester.isSDKInitialized s' = true /\
  (forall ops,
     forallb (fun eo => negb (Tester.isInitializeSDK eo.2)) ops = true ->
     Tester.isSDKInitialized (Tester.exec ops s') = true) /\
  (forall ops env' config' r' s'',
     Tester.initializeSDK env' config' (Tester.exec ops s') = (Normal r', s'') ->
     Tester.isSDKInitialized s'' = Tester.success r').
Proof.
  intros Hrun Hok.
  assert (Hflag : Tester.isSDKInitialized s' = true).
  { unfold Tester.isSDKInitialized.
    rewrite (initializeSDK_flag _ _ _ _ _ Hrun). exact Hok. }
  split; [exact Hflag|]. split.
  - intros ops Hops. unfold Tester.isSDKInitialized in *.
    rewrite (exec_keeps_instance ops s' Hops). exact Hflag.
  - intros ops env' config' r' s'' Hrun'.
    exact (initializeSDK_flag _ _ _ _ _ Hrun').
Qed.

Lemma initialized_until_initializeSDK_fails_witness :
  Tester.isSDKInitialized readyStore = true /\
  Tester.isSDKInitialized
    (Tester.exec [(quietEnv, Tester.OpTestPaymentIntent goodConfig);
                  (quietEnv, Tester.OpTestCardForm goodConfig "cardFormContainer");
                  (quietEnv, Tester.OpCardCallback "cardFormContainer" Tester.Cancelled);
                  (quietEnv, Tester.OpTestCORS goodConfig)] readyStore) = true.
Proof.
  pose proof
    (initialized_until_initializeSDK_fails quietEnv goodConfig freshStore readyStore
       {| Tester.success := true;
          Tester.message := "SDK initialized successfully! Business config loaded.";
          Tester.data := Some Tester.DataInitialized |}
       eq_refl eq_refl) as [H1 [H2 _]].
  split; [exact H1|].
  apply H2. reflexivity.
Defined.

(** C6 as stated fails: with no reset anywhere, a run of the tester's
    operations after a successful [initializeSDK] can end with
    [isSDKInitialized()] false.  Here the run is one more
    [initializeSDK], with an empty publishable key. *)
Lemma readiness_lost_without_reset :
  ~ (forall env config s r s' ops,
       Tester.initializeSDK env config s = (Normal r, s') ->
       Tester.success r = true ->
       Tester.isSDKInitialized (Tester.exec ops s') = true).
Proof.
  intros H.
  specialize (H quietEnv goodConfig freshStore
                {| Tester.success := true;
                   Tester.message := "SDK initialized successfully! Business config loaded.";
                   Tester.data := Some Tester.DataInitialized |}
                readyStore
                [(quietEnv, Tester.OpInitializeSDK noKeyConfig)]
                eq_refl eq_refl).
  vm_compute in H. discriminate H.
Qed.

(** *** Every probe resolves *)




(** *** The CORS probe *)

(** C7.  When [fetch] yields a response, the CORS probe resolves with
    [success] equal to [response.ok]; for a response that is not ok the
    message is ["CORS test failed - HTTP error: "] followed by the
    status in decimal, so the status appears literally in it. *)
Theorem testCORS_reports_http_status (env : Environment)
    (config : Tester.TestConfig) (s : Tester.Store) (response : Response) :
  fetch env (Tester.corsRequest config) = Responded response ->
  exists r s',
    Tester.testCORS env config s = (Normal r, s') /\
    Tester.success r = ok response /\
    (ok response = false ->
       Tester.message r = "CORS test failed - HTTP error: " +:+ pretty (status response) /\
       includes (pretty (status response)) (Tester.message r) = true).
Proof.
  intros Hfetch. tester_unfold. rewrite Hfetch. js_simpl.
  destruct (ok response) eqn:Hok; js_simpl;
    eexists _, _; (split; [reflexivity|]); cbn -[String.append pretty];
    (split; [reflexivity|]); intros H; try discriminate H.
  split; [reflexivity|]. apply includes_suffix.
Qed.

Lemma testCORS_reports_http_status_witness :
  exists r s',
    Tester.testCORS (fetchEnv (Responded {| ok := false; status := 403 |}))
                    goodConfig freshStore = (Normal r, s') /\
    Tester.success r = false /\
    (false = false ->
       Tester.message r = "CORS test failed - HTTP error: 403" /\
       includes "403" (Tester.message r) = true).
Proof.
  exact (testCORS_reports_http_status
           (fetchEnv (Responded {| ok := false; status := 403 |}))
           goodConfig freshStore {| ok := false; status := 403 |} eq_refl).
Defined.

(** C5, as the harness has it.  When [fetch] is rejected, the probe
    resolves with [success: false]; the failure text is searched for
    ["CORS"] and ["cross-origin"] exactly as written, letter case
    included: if either occurs the message is ["CORS test failed - CORS
    error: "] followed by the text, otherwise ["CORS test failed: "]
    followed by the text.  No message of the first form equals a message
    of the second form. *)
Theorem testCORS_classifies_rejection (env : Environment)
    (config : Tester.TestConfig) (s : Tester.Store) (text : string) :
  fetch env (Tester.corsRequest config) = Rejected text ->
  exists r s',
    Tester.testCORS env config s = (Normal r, s') /\
    Tester.success r = false /\
    Tester.message r =
      (if includes "CORS" text || includes "cross-origin" text
       then "CORS test failed - CORS error: " +:+ text
       else "CORS test failed: " +:+ text) /\
    forall text1 text2 : string,
      "CORS test failed - CORS error: " +:+ text1 <> "CORS test failed: " +:+ text2.
Proof.
  intros Hfetch. tester_unfold. rewrite Hfetch. js_simpl.
  destruct (includes "CORS" text || includes "cross-origin" text) eqn:Hclass; js_simpl;
    eexists _, _; (split; [reflexivity|]); cbn -[String.append];
    (split; [reflexivity|]); (split; [reflexivity|]);
    intros text1 text2; cbn; discriminate.
Qed.

Lemma testCORS_classifies_rejection_witness :
  exists r s',
    Tester.testCORS (fetchEnv (Rejected "blocked by CORS policy"))
                    goodConfig freshStore = (Normal r, s') /\
    Tester.success r = false /\
    Tester.message r = "CORS test failed - CORS error: blocked by CORS policy" /\
    forall text1 text2 : string,
      "CORS test failed - CORS error: " +:+ text1 <> "CORS test failed: " +:+ text2.
Proof.
  exact (testCORS_classifies_rejection
           (fetchEnv (Rejected "blocked by CORS policy"))
           goodConfig freshStore "blocked by CORS policy" eq_refl).
Defined.

(** C5 as stated fails: the failure text ["blocked by cors policy"]
    contains "CORS" under case-insensitive comparison, yet the probe
    answers with the generic network-failure message. *)
Lemma testCORS_lowercase_cors_is_generic :
  includesIgnoringCase "CORS" "blocked by cors policy" = true /\
  (Tester.testCORS (fetchEnv (Rejected "blocked by cors policy"))
                   goodConfig freshStore).1
    = Normal {| Tester.success := false;
                Tester.message := "CORS test failed: blocked by cors policy";
                Tester.data := Some (Tester.DataError (Some "blocked by cors policy")) |} /\
  ~ (forall env config s text r s',
       fetch env (Tester.corsRequest config) = Rejected text ->
       Tester.testCORS env config s = (Normal r, s') ->
       includesIgnoringCase "CORS" text || includesIgnoringCase "cross-origin" text = true ->
       Tester.message r = "CORS test failed - CORS error: " +:+ text).
Proof.
  split; [reflexivity|]. split; [reflexivity|].
  intros H.
  specialize (H (fetchEnv (Rejected "blocked by cors policy")) goodConfig freshStore
                "blocked by cors policy"
                {| Tester.success := false;
                   Tester.message := "CORS test failed: blocked by cors policy";
                   Tester.data := Some (Tester.DataError (Some "blocked by cors policy")) |}
                (Tester.step (fetchEnv (Rejected "blocked by cors policy"))
                             (Tester.OpTestCORS goodConfig) freshStore)
                eq_refl eq_refl eq_refl).
  cbn in H. discriminate H.
Qed.

(** *** Widget callbacks *)

Lemma querySelector_null (s : Tester.Store) (containerId id : string) :
  (forall c, Tester.document s !! containerId = Some c -> hasResult id c = false) ->
  Tester.querySelector containerId id s = (Normal None, s).
Proof.
  intros H. unfold Tester.querySelector.
  cbv [mbind mret M_bind M_ret Js.bind Js.ret Js.get].
  destruct (Tester.document s !! containerId) as [c|] eqn:E; [|reflexivity].
  rewrite (H c eq_refl). reflexivity.
Qed.

(** A callback that finds no result [div] returns at once. *)
Lemma cardCallback_without_result_div (s : Tester.Store) (containerId : string)
    (o : Tester.Outcome PaymentResult) :
  (forall c, Tester.document s !! containerId = Some c ->
             hasResult "cardFormResult" c = false) ->
  Tester.cardCallback containerId o s = (Normal tt, s).
Proof.
  intros H.
  unfold Tester.cardCallback, Tester.cardOnSuccess, Tester.cardOnError, Tester.cardOnCancel.
  destruct o; cbv [mbind M_bind Js.bind]; rewrite (querySelector_null _ _ _ H); reflexivity.
Qed.

Lemma tokenCallback_without_result_div (s : Tester.Store) (containerId : string)
    (o : Tester.Outcome TokenResult) :
  (forall c, Tester.document s !! containerId = Some c ->
             hasResult "tokenFormResult" c = false) ->
  Tester.tokenCallback containerId o s = (Normal tt, s).
Proof.
  intros H.
  unfold Tester.tokenCallback, Tester.tokenOnSuccess, Tester.tokenOnError,
         Tester.tokenOnCancel.
  destruct o; cbv [mbind M_bind Js.bind]; rewrite (querySelector_null _ _ _ H); reflexivity.
Qed.

(** No callback reaches the page's log or its result slots. *)
Lemma callbacks_keep_page_state (st : App.State) (containerId : string)
    (o : Tester.Outcome PaymentResult) (o' : Tester.Outcome TokenResult) :
  (App.logs (App.deliverCard containerId o st).2 = App.logs st /\
   App.results (App.deliverCard containerId o st).2 = App.results st) /\
  (App.logs (App.deliverToken containerId o' st).2 = App.logs st /\
   App.results (App.deliverToken containerId o' st).2 = App.results st).
Proof.
  app_unfold. split.
  - destruct (Tester.cardCallback containerId o (App.tester st)); split; reflexivity.
  - destruct (Tester.tokenCallback containerId o' (App.tester st)); split; reflexivity.
Qed.

(** What a token form's callback writes into the result [div]. *)
Lemma token_outcome_rendered (s : Tester.Store) (containerId : string)
    (slot : SlotContent) (rd : ResultDiv) (o : Tester.Outcome TokenResult) :
  Tester.document s !! containerId = Some (Template TokenForm slot rd) ->
  Tester.document (Tester.tokenCallback containerId o s).2 !! containerId
    = Some (Template TokenForm slot
              match o with
              | Tester.Succeeded r =>
                  {| className := Tester.resultClasses Tester.type_success;
                     content := DetailsMarkup
                                  ("✅ Token created successfully! ID: " +:+ token_id r)
                                  "View Token Details" (inr r) |}
              | Tester.Failed e =>
                  {| className := Tester.resultClasses Tester.type_error;
                     content := TextContent ("❌ Token creation failed: " +:+ e) |}
              | Tester.Cancelled =>
                  {| className := Tester.resultClasses Tester.type_error;
                     content := TextContent "⚠️ Token creation cancelled by user" |}
              end).
Proof.
  intros H. tester_unfold.
  destruct o; js_simpl; rewrite H; js_simpl; rewrite !lookup_alter_eq, H; reflexivity.
Qed.




(** C8.  Once a clear button has emptied a surface, a callback delivered
    for that surface changes nothing at all: the page state after the
    delivery is the state after the clear.  And in every state, a
    callback delivery leaves the log and the result slots as they were:
    no envelope is produced and no log entry appended. *)
Theorem outcome_after_clear_is_ignored (now : string) (st : App.State)
    (o : Tester.Outcome PaymentResult) (o' : Tester.Outcome TokenResult) :
  App.deliverCard "cardFormContainer" o (App.clearCardForm now st).2
    = (Normal tt, (App.clearCardForm now st).2) /\
  App.deliverToken "tokenFormContainer" o' (App.clearTokenForm now st).2
    = (Normal tt, (App.clearTokenForm now st).2) /\
  forall (st1 : App.State) (containerId : string),
    (App.logs (App.deliverCard containerId o st1).2 = App.logs st1 /\
     App.results (App.deliverCard containerId o st1).2 = App.results st1) /\
    (App.logs (App.deliverToken containerId o' st1).2 = App.logs st1 /\
     App.results (App.deliverToken containerId o' st1).2 = App.results st1).
Proof.
  split; [|split].
  - unfold App.deliverCard, App.onTester, Js.zoom.
    rewrite cardCallback_without_result_div; [reflexivity|].
    intros c. app_unfold. unfold Tester.updateElement. js_simpl.
    rewrite lookup_alter_eq.
    destruct (Tester.document (App.tester st) !! "cardFormContainer");
      intros [= <-]; reflexivity.
  - unfold App.deliverToken, App.onTester, Js.zoom.
    rewrite tokenCallback_without_result_div; [reflexivity|].
    intros c. app_unfold. unfold Tester.updateElement. js_simpl.
    rewrite lookup_alter_eq.
    destruct (Tester.document (App.tester st) !! "tokenFormContainer");
      intros [= <-]; reflexivity.
  - intros st1 containerId. apply callbacks_keep_page_state.
Qed.

(** *** The log *)

(** C4, as the page has it.  A dependent handler run while
    [isSDKInitialized()] is false stores the gate envelope and appends
    nothing to the log.  Otherwise the handler appends exactly one
    [info] entry when it starts and exactly one more when the tester's
    probe settles: [success] or [error] according to the envelope's
    [success]; its message is the handler's own text, on failure the
    probe's failure prefix followed by the envelope's message, on
    success a fixed line (for the payment intent, with the created id).
    If the tester's probe is rejected, the handler stores and logs the
    prefix followed by the rejection's message. *)
Theorem handler_log_contract (env : Environment) (t0 t1 : string) (p : App.Probe)
    (st : App.State) :
  let st' := (App.handler env t0 t1 p st).2 in
  let started :=
    {| App.timestamp := t0; App.message := App.startText p; App.type := App.info |} in
  let resolved (message : string) (type : App.LogType) :=
    {| App.timestamp := t1; App.message := message; App.type := type |} in
  if App.dependent p && negb (Tester.isSDKInitialized (App.tester st))
  then
    App.logs st' = App.logs st /\
    App.slot p (App.results st')
      = Some {| Tester.success := false;
                Tester.message := "Please initialize the SDK first";
                Tester.data := None |}
  else
    match (App.probe env p (App.config st) (App.tester st)).1 with
    | Normal r =>
        App.slot p (App.results st') = Some r /\
        App.logs st' =
          App.logs st ++
            [started;
             if Tester.success r
             then resolved (App.successText p r) App.success
             else resolved (App.failurePrefix p +:+ Tester.message r) App.error]
    | Throw (ErrorObj m) =>
        App.slot p (App.results st')
          = Some (App.envelope false (App.failurePrefix p +:+ m)) /\
        App.logs st' =
          App.logs st ++ [started; resolved (App.failurePrefix p +:+ m) App.error]
    | Throw NoMessage =>
        App.slot p (App.results st')
          = Some (App.envelope false (App.failurePrefix p +:+ "undefined")) /\
        App.logs st' =
          App.logs st ++ [started; resolved (App.failurePrefix p +:+ "undefined") App.error]
    | Throw (Nullish _) =>
        App.slot p (App.results st') = None /\
        App.logs st' = App.logs st ++ [started]
    end.
Proof.
  destruct p; app_unfold; unfold Tester.isSDKInitialized in *.
  all: try (destruct (Tester.isInitialized _) eqn:Hready; js_simpl;
            [|split; reflexivity]).
  all: split_probe.
  all: try (destruct (Tester.success r); js_simpl).
  all: try (destruct e; js_simpl).
  all: rewrite <- ?app_assoc; split; reflexivity.
Qed.

(** C4 as stated fails twice over.  After a successful "Test SDK
    Initialization" the resolved log entry reads "SDK initialized
    successfully!" while the envelope's message is longer; and "Test
    Payment Intent" pressed before initialization stores an envelope
    and logs nothing. *)
Lemma log_entry_is_not_the_envelope_message :
  let st' := (App.handler quietEnv "10:00:00.000" "10:00:00.250"
                          App.InitProbe App.initialState).2 in
  let gated := (App.handler quietEnv "10:00:00.000" "10:00:00.250"
                            App.PaymentProbe App.initialState).2 in
  (App.message <$> App.logs st')
    = ["Starting SDK initialization test..."; "SDK initialized successfully!"] /\
  (Tester.message <$> App.init (App.results st'))
    = Some "SDK initialized successfully! Business config loaded." /\
  App.payment (App.results gated) = Some Tester.gateEnvelope /\
  App.logs gated = [] /\
  ~ (forall env t0 t1 p st r,
       App.slot p (App.results (App.handler env t0 t1 p st).2) = Some r ->
       exists started resolved,
         App.logs (App.handler env t0 t1 p st).2 = App.logs st ++ [started; resolved] /\
         App.type started = App.info /\
         App.message resolved = Tester.message r).
Proof.
  repeat (split; [reflexivity|]).
  intros H.
  destruct (H quietEnv "10:00:00.000" "10:00:00.250" App.PaymentProbe App.initialState
              Tester.gateEnvelope eq_refl) as (started & resolved & Hlogs & _).
  vm_compute in Hlogs. discriminate Hlogs.
Qed.

(* ===================================================================== *)
(** ** Further properties of the tester                                  *)
(* ===================================================================== *)

Lemma truthy_true (s : string) : s <> EmptyString -> truthy s = true.
Proof. destruct s; [congruence | reflexivity]. Qed.

Lemma truthy_or_else (a b : string) : truthy b = true -> truthy (or_else a b) = true.
Proof. unfold or_else. destruct (truthy a) eqn:E; auto. Qed.

Lemma alter_alter {A} (f g : A -> A) (i : string) (m : gmap string A) :
  alter f i (alter g i m) = alter (fun x => f (g x)) i m.
Proof.
  apply map_eq. intros j. destruct (decide (i = j)) as [<-|Hne].
  - rewrite !lookup_alter_eq. destruct (m !! i); reflexivity.
  - rewrite !lookup_alter_ne by exact Hne. reflexivity.
Qed.

Lemma alter_agree {A} (f g : A -> A) (i : string) (m : gmap string A) :
  (forall x, m !! i = Some x -> f x = g x) -> alter f i m = alter g i m.
Proof.
  intros H. apply map_eq. intros j. destruct (decide (i = j)) as [<-|Hne].
  - rewrite !lookup_alter_eq. destruct (m !! i) eqn:E; cbn; [|reflexivity].
    rewrite (H _ eq_refl). reflexivity.
  - rewrite !lookup_alter_ne by exact Hne. reflexivity.
Qed.


(** X1.  For a configuration with a publishable key and a business id,
    [initializeSDK] calls the SDK constructor once, always for the
    development environment and with the demo token when no SDK token is
    given.  If the constructor returns, the new client replaces the old
    one and the flag is set; if it throws, the client held before is
    kept, the flag is cleared, and the envelope carries the thrown
    message. *)

Theorem initializeSDK_constructs_client (env : Environment) (config : Tester.TestConfig)
    (s : Tester.Store) :
  Tester.publishableKey config <> EmptyString ->
  Tester.businessId config <> EmptyString ->
  let o := {| environment := "development";
              opt_publishableKey := Tester.publishableKey config;
              opt_sdkToken := if truthy (Tester.sdkToken config)
                              then Tester.sdkToken config else "demo-sdk-token-123";
              opt_businessId := Tester.businessId config |} in
  let called := {| Tester.this := Tester.this s; Tester.document := Tester.document s;
                   Tester.calls := Tester.calls s ++ [CallNew o] |} in
  Tester.initializeSDK env config s =
    match new_AxraPay env o with
    | Normal _ =>
        (Normal {| Tester.success := true;
                   Tester.message := "SDK initialized successfully! Business config loaded.";
                   Tester.data := Some Tester.DataInitialized |},
         {| Tester.this := {| Tester.axraPay := Some {| options := o |};
                              Tester.isInitialized := true |};
            Tester.document := Tester.document s;
            Tester.calls := Tester.calls s ++ [CallNew o] |})
    | Throw e =>
        let revoked :=
          {| Tester.this := {| Tester.axraPay := Tester.axraPay (Tester.this s);
                               Tester.isInitialized := false |};
             Tester.document := Tester.document s;
             Tester.calls := Tester.calls s ++ [CallNew o] |} in
        match e with
        | ErrorObj m =>
            (Normal {| Tester.success := false;
                       Tester.message := "SDK initialization failed: " +:+ m;
                       Tester.data := Some (Tester.DataError (Some m)) |}, revoked)
        | NoMessage =>
            (Normal {| Tester.success := false;
                       Tester.message := "SDK initialization failed: undefined";
                       Tester.data := Some (Tester.DataError None) |}, revoked)
        | Nullish v => (Throw (TypeError v "message"), revoked)
        end
    end.
Proof.
  intros Hkey Hbid o called.
  unfold Tester.initializeSDK.
  rewrite (truthy_true _ Hkey), (truthy_true _ Hbid).
  tester_unfold. unfold Tester.sdkOptions, or_else, Tester.demoToken. fold o.
  destruct (new_AxraPay env o) as [[]|[m| |v]]; reflexivity.
Qed.


Lemma initializeSDK_constructs_client_witness :
  Tester.initializeSDK refusingEnv goodConfig readyStore
    = (Normal {| Tester.success := false;
                 Tester.message := "SDK initialization failed: Invalid publishable key";
                 Tester.data := Some (Tester.DataError (Some "Invalid publishable key")) |},
       {| Tester.this := {| Tester.axraPay := Tester.axraPay (Tester.this readyStore);
                            Tester.isInitialized := false |};
          Tester.document := Tester.document readyStore;
          Tester.calls := Tester.calls readyStore
                          ++ [CallNew {| environment := "development";
                                         opt_publishableKey := "pk_test_demo_key";
                                         opt_sdkToken := "demo-sdk-token-123";
                                         opt_businessId := "demo-business-123" |}] |}).
Proof.
  exact (initializeSDK_constructs_client refusingEnv goodConfig readyStore
           ltac:(vm_compute; discriminate) ltac:(vm_compute; discriminate)).
Defined.

(** X2.  With the flag set and a client held, [testPaymentIntent] calls
    [createPaymentIntent] once on that client, for 29.99 USD and the
    business id of the configuration passed to this call; the envelope
    carries the created id or the rejection's message.  The instance
    and the document are untouched. *)

Theorem testPaymentIntent_when_ready (env : Environment) (config : Tester.TestConfig)
    (s : Tester.Store) (sdk : AxraPay) :
  Tester.isInitialized (Tester.this s) = true ->
  Tester.axraPay (Tester.this s) = Some sdk ->
  let p := {| pi_amount := "29.99"; pi_currency := "USD";
              pi_businessId := Tester.businessId config;
              pi_description := "SDK Test Payment" |} in
  let called := {| Tester.this := Tester.this s; Tester.document := Tester.document s;
                   Tester.calls := Tester.calls s ++ [CallCreatePaymentIntent sdk p] |} in
  Tester.testPaymentIntent env config s =
    match createPaymentIntent env sdk p with
    | Normal result =>
        (Normal {| Tester.success := true;
                   Tester.message := "Payment intent created successfully! ID: " +:+ id result;
                   Tester.data := Some (Tester.DataResult result) |}, called)
    | Throw (ErrorObj m) =>
        (Normal {| Tester.success := false;
                   Tester.message := "Payment intent creation failed: " +:+ m;
                   Tester.data := Some (Tester.DataError (Some m)) |}, called)
    | Throw NoMessage =>
        (Normal {| Tester.success := false;
                   Tester.message := "Payment intent creation failed: undefined";
                   Tester.data := Some (Tester.DataError None) |}, called)
    | Throw (Nullish v) => (Throw (TypeError v "message"), called)
    end.
Proof.
  intros Hflag Hsdk p called.
  unfold Tester.testPaymentIntent. js_simpl. rewrite Hflag, Hsdk.
  tester_unfold. unfold Tester.intentParams. fold p.
  destruct (createPaymentIntent env sdk p) as [result|[m| |v]]; reflexivity.
Qed.


Lemma testPaymentIntent_when_ready_witness :
  (Tester.testPaymentIntent quietEnv goodConfig readyStore).1
    = Normal {| Tester.success := true;
                Tester.message := "Payment intent created successfully! ID: pi_123";
                Tester.data := Some (Tester.DataResult {| id := "pi_123" |}) |}.
Proof.
  exact (f_equal fst
           (testPaymentIntent_when_ready quietEnv goodConfig readyStore
              {| options := Tester.sdkOptions goodConfig |} eq_refl eq_refl)).
Defined.

(** X3.  With the gate open, a mount probe whose container id names no
    element resolves with [success: false] and a message naming the id;
    it does not call the SDK and leaves the store as it was. *)

Theorem mount_probes_missing_container (env : Environment) (config : Tester.TestConfig)
    (containerId : string) (s : Tester.Store) (sdk : AxraPay) :
  Tester.isInitialized (Tester.this s) = true ->
  Tester.axraPay (Tester.this s) = Some sdk ->
  Tester.document s !! containerId = None ->
  let notFound := "Container with id '" +:+ containerId +:+ "' not found" in
  Tester.testCardForm env config containerId s
    = (Normal {| Tester.success := false;
                 Tester.message := "Card form mounting failed: " +:+ notFound;
                 Tester.data := Some (Tester.DataError (Some notFound)) |}, s) /\
  Tester.testTokenForm env config containerId s
    = (Normal {| Tester.success := false;
                 Tester.message := "Token form mounting failed: " +:+ notFound;
                 Tester.data := Some (Tester.DataError (Some notFound)) |}, s).
Proof.
  intros Hflag Hsdk Hnone notFound.
  unfold Tester.testCardForm, Tester.testTokenForm. js_simpl. rewrite Hflag, Hsdk.
  tester_unfold. rewrite Hnone. js_simpl. rewrite Hnone. js_simpl.
  destruct s; split; reflexivity.
Qed.


Lemma mount_probes_missing_container_witness :
  (Tester.testCardForm quietEnv goodConfig "nowhere" readyStore).1
    = Normal {| Tester.success := false;
                Tester.message :=
                  "Card form mounting failed: Container with id 'nowhere' not found";
                Tester.data :=
                  Some (Tester.DataError (Some "Container with id 'nowhere' not found")) |}.
Proof.
  exact (f_equal fst
           (proj1 (mount_probes_missing_container quietEnv goodConfig "nowhere" readyStore
                     {| options := Tester.sdkOptions goodConfig |}
                     eq_refl eq_refl eq_refl))).
Defined.

(** X4.  With the gate open and the container in the document,
    [testCardForm] calls [mountCardForm] once, with the selector
    ["#<containerId> #axrapay-card-form"], and leaves the instance as
    it was.  The container's content is replaced by the probe's own
    markup: the form element and a hidden, empty result element.  If
    the mount resolves the envelope has [success: true].  If it throws
    an Error, the envelope has [success: false] with the thrown message,
    and the form element's [innerHTML] is assigned the failure markup,
    into which the thrown message is interpolated as it is. *)
Theorem testCardForm_when_ready (env : Environment) (config : Tester.TestConfig)
    (containerId : string) (s : Tester.Store) (sdk : AxraPay) (before : Surface) :
  Tester.isInitialized (Tester.this s) = true ->
  Tester.axraPay (Tester.this s) = Some sdk ->
  Tester.document s !! containerId = Some before ->
  let p := Tester.cardFormParams config containerId in
  let fresh := {| className := ["mt-4"; "hidden"]; content := NoContent |} in
  let outcome := Tester.testCardForm env config containerId s in
  cf_selector p = "#" +:+ containerId +:+ " #axrapay-card-form" /\
  Tester.this outcome.2 = Tester.this s /\
  Tester.calls outcome.2 = Tester.calls s ++ [CallMountCardForm sdk p] /\
  match mountCardForm env sdk p with
  | Normal _ =>
      outcome.1 =
        Normal {| Tester.success := true;
                  Tester.message :=
                    "AxraPay card form mounted successfully! Try making a payment.";
                  Tester.data := Some (Tester.DataMounted containerId "mountCardForm") |} /\
      Tester.document outcome.2 !! containerId = Some (Template CardForm Spinner fresh)
  | Throw (ErrorObj m) =>
      outcome.1 =
        Normal {| Tester.success := false;
                  Tester.message := "Card form mounting failed: " +:+ m;
                  Tester.data := Some (Tester.DataError (Some m)) |} /\
      Tester.document outcome.2 !! containerId
        = Some (Template CardForm (FailureMarkup "Card Form Mounting Failed" m) fresh) /\
      includes m (failureHTML "Card Form Mounting Failed" m) = true
  | Throw NoMessage =>
      outcome.1 =
        Normal {| Tester.success := false;
                  Tester.message := "Card form mounting failed: undefined";
                  Tester.data := Some (Tester.DataError None) |} /\
      Tester.document outcome.2 !! containerId
        = Some (Template CardForm (FailureMarkup "Card Form Mounting Failed" "undefined")
                  fresh)
  | Throw (Nullish v) =>
      outcome.1 = Throw (TypeError v "message") /\
      Tester.document outcome.2 !! containerId = Some (Template CardForm Spinner fresh)
  end.
Proof.
  intros Hflag Hsdk Hsome p fresh outcome. subst outcome.
  split; [reflexivity|].
  unfold Tester.testCardForm. js_simpl. rewrite Hflag, Hsdk.
  tester_unfold. rewrite Hsome. js_simpl. fold p.
  destruct (mountCardForm env sdk p) as [[]|[m| |v]]; js_simpl;
    rewrite ?lookup_alter_eq, ?Hsome; js_simpl;
    rewrite ?lookup_alter_eq, ?Hsome; repeat split.
  unfold failureHTML. find_interpolated.
Qed.

Lemma testCardForm_when_ready_witness :
  (Tester.testCardForm Scenarios.decliningEnv goodConfig "cardFormContainer" readyStore).1
    = Normal {| Tester.success := false;
                Tester.message := "Card form mounting failed: Iframe blocked";
                Tester.data := Some (Tester.DataError (Some "Iframe blocked")) |} /\
  Tester.document
    (Tester.testCardForm Scenarios.decliningEnv goodConfig "cardFormContainer" readyStore).2
    !! "cardFormContainer"
    = Some (Template CardForm (FailureMarkup "Card Form Mounting Failed" "Iframe blocked")
              {| className := ["mt-4"; "hidden"]; content := NoContent |}) /\
  includes "Iframe blocked" (failureHTML "Card Form Mounting Failed" "Iframe blocked") = true.
Proof.
  exact (proj2 (proj2 (proj2
           (testCardForm_when_ready Scenarios.decliningEnv goodConfig
              "cardFormContainer" readyStore
              {| options := Tester.sdkOptions goodConfig |} Placeholder
              eq_refl eq_refl eq_refl)))).
Defined.

(** X5.  The same for [testTokenForm]: one [mountTokenForm] call with
    the selector ["#<containerId> #axrapay-token-form"], the container's
    content replaced by the probe's own markup, [success: true] when the
    mount resolves, and on a thrown Error a [success: false] envelope
    and the failure markup, with the thrown message interpolated as it
    is, assigned to the form element's [innerHTML]. *)
Theorem testTokenForm_when_ready (env : Environment) (config : Tester.TestConfig)
    (containerId : string) (s : Tester.Store) (sdk : AxraPay) (before : Surface) :
  Tester.isInitialized (Tester.this s) = true ->
  Tester.axraPay (Tester.this s) = Some sdk ->
  Tester.document s !! containerId = Some before ->
  let p := Tester.tokenFormParams containerId in
  let fresh := {| className := ["mt-4"; "hidden"]; content := NoContent |} in
  let outcome := Tester.testTokenForm env config containerId s in
  tf_selector p = "#" +:+ containerId +:+ " #axrapay-token-form" /\
  Tester.this outcome.2 = Tester.this s /\
  Tester.calls outcome.2 = Tester.calls s ++ [CallMountTokenForm sdk p] /\
  match mountTokenForm env sdk p with
  | Normal _ =>
      outcome.1 =
        Normal {| Tester.success := true;
                  Tester.message :=
                    "AxraPay token form mounted successfully! Try creating a token.";
                  Tester.data := Some (Tester.DataMounted containerId "mountTokenForm") |} /\
      Tester.document outcome.2 !! containerId = Some (Template TokenForm Spinner fresh)
  | Throw (ErrorObj m) =>
      outcome.1 =
        Normal {| Tester.success := false;
                  Tester.message := "Token form mounting failed: " +:+ m;
                  Tester.data := Some (Tester.DataError (Some m)) |} /\
      Tester.document outcome.2 !! containerId
        = Some (Template TokenForm (FailureMarkup "Token Form Mounting Failed" m) fresh) /\
      includes m (failureHTML "Token Form Mounting Failed" m) = true
  | Throw NoMessage =>
      outcome.1 =
        Normal {| Tester.success := false;
                  Tester.message := "Token form mounting failed: undefined";
                  Tester.data := Some (Tester.DataError None) |} /\
      Tester.document outcome.2 !! containerId
        = Some (Template TokenForm (FailureMarkup "Token Form Mounting Failed" "undefined")
                  fresh)
  | Throw (Nullish v) =>
      outcome.1 = Throw (TypeError v "message") /\
      Tester.document outcome.2 !! containerId = Some (Template TokenForm Spinner fresh)
  end.
Proof.
  intros Hflag Hsdk Hsome p fresh outcome. subst outcome.
  split; [reflexivity|].
  unfold Tester.testTokenForm. js_simpl. rewrite Hflag, Hsdk.
  tester_unfold. rewrite Hsome. js_simpl. fold p.
  destruct (mountTokenForm env sdk p) as [[]|[m| |v]]; js_simpl;
    rewrite ?lookup_alter_eq, ?Hsome; js_simpl;
    rewrite ?lookup_alter_eq, ?Hsome; repeat split.
  unfold failureHTML. find_interpolated.
Qed.

Lemma testTokenForm_when_ready_witness :
  (Tester.testTokenForm quietEnv goodConfig "tokenFormContainer" readyStore).1
    = Normal {| Tester.success := true;
                Tester.message :=
                  "AxraPay token form mounted successfully! Try creating a token.";
                Tester.data :=
                  Some (Tester.DataMounted "tokenFormContainer" "mountTokenForm") |} /\
  Tester.document
    (Tester.testTokenForm quietEnv goodConfig "tokenFormContainer" readyStore).2
    !! "tokenFormContainer"
    = Some (Template TokenForm Spinner
              {| className := ["mt-4"; "hidden"]; content := NoContent |}).
Proof.
  exact (proj2 (proj2 (proj2
           (testTokenForm_when_ready quietEnv goodConfig "tokenFormContainer"
              readyStore {| options := Tester.sdkOptions goodConfig |} Placeholder
              eq_refl eq_refl eq_refl)))).
Defined.



(** X9.  Every operation appends to the record of outside calls and
    never rewrites it; it adds at most one call.  A callback adds none,
    [testCORS] adds exactly its one [fetch] and never calls the SDK, and
    the other probes never call [fetch]. *)

Theorem step_records_at_most_one_call (env : Environment) (op : Tester.Op)
    (s : Tester.Store) :
  exists new : list Call,
    Tester.calls (Tester.step env op s) = Tester.calls s ++ new /\
    length new <= 1 /\
    match op with
    | Tester.OpCardCallback _ _ | Tester.OpTokenCallback _ _ => new = []
    | Tester.OpTestCORS c => new = [CallFetch (Tester.corsRequest c)]
    | _ => forallb is_client_call new = true
    end.
Proof.
  destruct op as [c|c|c i|c i|c|i o|i o]; tester_unfold; repeat js_case.
  all: first [ exists []; rewrite app_nil_r; cbn; repeat split; (reflexivity || lia)
             | eexists [_]; cbn; repeat split; (reflexivity || lia) ].
Qed.


(** X10.  [testCORS] is not gated: it sends the same request, to the
    config endpoint with the business id in the query, the publishable
    key header and a bearer token that falls back to the demo token,
    and resolves with the same envelope whatever the store, and it
    changes neither the instance nor the document. *)

Theorem testCORS_ignores_store (env : Environment) (config : Tester.TestConfig)
    (s : Tester.Store) :
  let request :=
    {| url := "https://dev.gopremium.africa/api/sdk/config?businessId="
              +:+ Tester.businessId config;
       method := "GET";
       headers := [("X-AxraPay-Publishable-Key", Tester.publishableKey config);
                   ("Authorization",
                    "Bearer " +:+ (if truthy (Tester.sdkToken config)
                                   then Tester.sdkToken config
                                   else "demo-sdk-token-123"))] |} in
  exists r,
    Tester.testCORS env config s
      = (Normal r, {| Tester.this := Tester.this s;
                      Tester.document := Tester.document s;
                      Tester.calls := Tester.calls s ++ [CallFetch request] |}) /\
    forall s2, (Tester.testCORS env config s2).1 = Normal r.
Proof.
  intros request. tester_unfold.
  unfold Tester.corsRequest, or_else, Tester.demoToken. fold request.
  destruct (fetch env request) as [resp|m]; js_simpl; repeat js_case;
    eexists; split; reflexivity || (intros s2; reflexivity).
Qed.


(** X11.  Nothing limits a form to one outcome: a second callback
    overwrites what the first one showed, so the two deliveries leave
    the store exactly as the second one alone would. *)

Theorem last_callback_wins (s : Tester.Store) (containerId : string)
    (o1 o2 : Tester.Outcome PaymentResult) (t1 t2 : Tester.Outcome TokenResult) :
  Tester.cardCallback containerId o2 (Tester.cardCallback containerId o1 s).2
    = Tester.cardCallback containerId o2 s /\
  Tester.tokenCallback containerId t2 (Tester.tokenCallback containerId t1 s).2
    = Tester.tokenCallback containerId t2 s.
Proof.
  split.
  - destruct (Tester.document s !! containerId) as [[| |[] slot rd]|] eqn:E.
    1,2,4,5: rewrite (cardCallback_without_result_div s containerId o1)
               by (intros c; rewrite E; intros [= <-]; reflexivity);
             reflexivity.
    tester_unfold.
    destruct o1, o2; js_simpl; rewrite ?E; js_simpl; rewrite ?lookup_alter_eq, ?E; js_simpl;
      f_equal; f_equal; rewrite !alter_alter; apply alter_agree;
      intros x; rewrite E; intros [= <-]; reflexivity.
  - destruct (Tester.document s !! containerId) as [[| |[] slot rd]|] eqn:E.
    1,2,3,5: rewrite (tokenCallback_without_result_div s containerId t1)
               by (intros c; rewrite E; intros [= <-]; reflexivity);
             reflexivity.
    tester_unfold.
    destruct t1, t2; js_simpl; rewrite ?E; js_simpl; rewrite ?lookup_alter_eq, ?E; js_simpl;
      f_equal; f_equal; rewrite !alter_alter; apply alter_agree;
      intros x; rewrite E; intros [= <-]; reflexivity.
Qed.


(** X12.  A callback writes only into its own form's markup: on a
    surface holding the other form's markup, the placeholder, nothing,
    or on a missing element, it returns without changing the store. *)

Theorem callback_needs_its_own_markup (s : Tester.Store) (containerId : string)
    (o : Tester.Outcome PaymentResult) (t : Tester.Outcome TokenResult) :
  match Tester.document s !! containerId with
  | Some (Template CardForm _ _) => Tester.tokenCallback containerId t s = (Normal tt, s)
  | Some (Template TokenForm _ _) => Tester.cardCallback containerId o s = (Normal tt, s)
  | _ => Tester.cardCallback containerId o s = (Normal tt, s) /\
         Tester.tokenCallback containerId t s = (Normal tt, s)
  end.
Proof.
  destruct (Tester.document s !! containerId) as [[| |[] slot rd]|] eqn:E; try split.
  all: first [ apply cardCallback_without_result_div
             | apply tokenCallback_without_result_div ];
       intros c; rewrite E; intros [= <-]; reflexivity.
Qed.

Lemma step_keeps_client_conditions (env : Environment) (op : Tester.Op) (s : Tester.Store) :
  Inv.flagHasClient s /\ Inv.clientWellFormed s ->
  Inv.flagHasClient (Tester.step env op s) /\ Inv.clientWellFormed (Tester.step env op s).
Proof.
  intros [Hflag Hwf].
  destruct (Tester.isInitializeSDK op) eqn:Hop.
  - destruct op as [c| | | | | |]; try discriminate Hop.
    unfold Inv.flagHasClient, Inv.clientWellFormed, Inv.clientOptions in *.
    tester_unfold.
    destruct (truthy (Tester.publishableKey c)) eqn:Hk;
      destruct (truthy (Tester.businessId c)) eqn:Hb; js_simpl;
      repeat js_case; split; try discriminate; try exact Hwf.
    intros o [= <-]. unfold Inv.wellFormed, Tester.sdkOptions. cbn.
    rewrite Hk, Hb, truthy_or_else; reflexivity.
  - unfold Inv.flagHasClient, Inv.clientWellFormed, Inv.clientOptions in *.
    rewrite (step_keeps_instance env op s Hop). split; assumption.
Qed.


(** X13.  Two conditions every run of the tester's operations keeps:
    the flag is set only while a client is held, and a held client was
    constructed for the development environment with no empty
    credential. *)

Theorem exec_keeps_client_conditions (ops : list (Environment * Tester.Op))
    (s : Tester.Store) :
  Inv.flagHasClient s -> Inv.clientWellFormed s ->
  Inv.flagHasClient (Tester.exec ops s) /\ Inv.clientWellFormed (Tester.exec ops s).
Proof.
  revert s. induction ops as [|[env op] ops IH]; intros s H1 H2; simpl; [split; assumption|].
  destruct (step_keeps_client_conditions env op s (conj H1 H2)) as [G1 G2].
  apply IH; assumption.
Qed.


Lemma exec_keeps_client_conditions_witness :
  Inv.flagHasClient
    (Tester.exec [(quietEnv, Tester.OpInitializeSDK goodConfig);
                  (refusingEnv, Tester.OpInitializeSDK goodConfig)] freshStore) /\
  Inv.clientWellFormed
    (Tester.exec [(quietEnv, Tester.OpInitializeSDK goodConfig);
                  (refusingEnv, Tester.OpInitializeSDK goodConfig)] freshStore).
Proof.
  apply (exec_keeps_client_conditions
           [(quietEnv, Tester.OpInitializeSDK goodConfig);
            (refusingEnv, Tester.OpInitializeSDK goodConfig)] freshStore).
  - intros H. vm_compute in H. discriminate H.
  - intros o H. vm_compute in H. discriminate H.
Defined.

(* ===================================================================== *)
(** ** Further properties of the page                                    *)
(* ===================================================================== *)

Lemma tester_throws_error_objects (env : Environment) (p : App.Probe)
    (config : Tester.TestConfig) (s s' : Tester.Store) (e : Thrown) :
  App.probe env p config s = (Throw e, s') -> exists v, e = TypeError v "message".
Proof.
  destruct p; unfold App.probe; tester_unfold; repeat js_case;
    intros [= <- <-] || intros [=]; eexists; reflexivity.
Qed.



(** X14.  No event handler of the page ends with an exception, whatever
    the SDK and [fetch] do: a rejected probe is caught by the handler's
    own [catch], whose read of [error.message] always succeeds. *)


Lemma handler_extends_log (env : Environment) (t0 t1 : string) (p : App.Probe)
    (st : App.State) :
  exists new, App.logs (App.handler env t0 t1 p st).2 = App.logs st ++ new /\ length new <= 2.
Proof.
  destruct p; app_unfold; unfold Tester.isSDKInitialized in *.
  all: try (destruct (Tester.isInitialized _) eqn:Hready; js_simpl;
            [|exists []; rewrite app_nil_r; split; [reflexivity|cbn; lia]]).
  all: split_probe.
  all: try (destruct (Tester.success r); js_simpl).
  all: try (destruct e; js_simpl).
  all: rewrite <- ?app_assoc; eexists; (split; [reflexivity|cbn; lia]).
Qed.

Lemma fire_extends_log (o : Page.Occurrence) (st : App.State) :
  Page.isClearLogs (Page.event o) = false ->
  exists new, App.logs (Page.fire o st).2 = App.logs st ++ new /\ length new <= 2.
Proof.
  intros Hev. unfold Page.fire.
  destruct (Page.event o) as [p| | | |v|v|v|r|r]; try discriminate Hev.
  - apply handler_extends_log.
  - page_unfold. eexists [_]. split; [reflexivity|cbn; lia].
  - page_unfold. eexists [_]. split; [reflexivity|cbn; lia].
  - page_unfold. exists []. rewrite app_nil_r. split; [reflexivity|cbn; lia].
  - page_unfold. exists []. rewrite app_nil_r. split; [reflexivity|cbn; lia].
  - page_unfold. exists []. rewrite app_nil_r. split; [reflexivity|cbn; lia].
  - exists []. rewrite app_nil_r. split; [|cbn; lia].
    apply (callbacks_keep_page_state st "cardFormContainer" r Tester.Cancelled).
  - exists []. rewrite app_nil_r. split; [|cbn; lia].
    apply (callbacks_keep_page_state st "tokenFormContainer" Tester.Cancelled r).
Qed.


(** X15.  Apart from "Clear Logs", no event removes or rewrites a log
    entry: after any run of other events the log is the old log followed
    by new entries, at most two per event. *)

Theorem log_is_append_only (os : list Page.Occurrence) (st : App.State) :
  forallb (fun o => negb (Page.isClearLogs (Page.event o))) os = true ->
  exists new,
    App.logs (Page.run os st) = App.logs st ++ new /\ length new <= 2 * length os.
Proof.
  revert st. induction os as [|o os IH]; intros st H; simpl in *.
  - exists []. rewrite app_nil_r. split; [reflexivity|cbn; lia].
  - apply andb_prop in H as [Ho Hos]. apply negb_true_iff in Ho.
    destruct (fire_extends_log o st Ho) as (new1 & E1 & L1).
    destruct (IH (Page.fire o st).2 Hos) as (new2 & E2 & L2).
    exists (new1 ++ new2). rewrite E2, E1, <- app_assoc. split; [reflexivity|].
    rewrite length_app. lia.
Qed.


Lemma log_is_append_only_witness :
  exists new,
    App.logs (Page.run [Scenarios.occur quietEnv Page.ClickClearCardForm;
                        Scenarios.occur quietEnv (Page.Click App.CorsProbe)]
                       mountedPage)
      = App.logs mountedPage ++ new /\
    length new <= 2 * 2.
Proof.
  apply (log_is_append_only
           [Scenarios.occur quietEnv Page.ClickClearCardForm;
            Scenarios.occur quietEnv (Page.Click App.CorsProbe)] mountedPage).
  reflexivity.
Defined.

(** X16.  An event changes the result slot of the probe whose button
    was clicked and no other: clear buttons, inputs, callbacks and the
    other probes leave a slot as it was. *)

Theorem event_touches_only_its_slot (o : Page.Occurrence) (st : App.State) (q : App.Probe) :
  Page.event o <> Page.Click q ->
  App.slot q (App.results (Page.fire o st).2) = App.slot q (App.results st).
Proof.
  intros Hev. unfold Page.fire.
  destruct (Page.event o) as [p| | | |v|v|v|r|r].
  - assert (Hpq : p <> q) by congruence. clear Hev.
    destruct p, q; try congruence; clear Hpq; app_unfold; unfold Tester.isSDKInitialized in *.
    all: try (destruct (Tester.isInitialized _) eqn:Hready; js_simpl; [|reflexivity]).
    all: split_probe.
    all: try (destruct (Tester.success r); js_simpl).
    all: try (destruct e; js_simpl).
    all: reflexivity.
  - reflexivity.
  - reflexivity.
  - reflexivity.
  - reflexivity.
  - reflexivity.
  - reflexivity.
  - f_equal. apply (callbacks_keep_page_state st "cardFormContainer" r Tester.Cancelled).
  - f_equal. apply (callbacks_keep_page_state st "tokenFormContainer" Tester.Cancelled r).
Qed.


Lemma event_touches_only_its_slot_witness :
  App.slot App.CardProbe
    (App.results (Page.fire (Scenarios.occur quietEnv (Page.Click App.CorsProbe))
                            mountedPage).2)
    = App.slot App.CardProbe (App.results mountedPage).
Proof.
  apply (event_touches_only_its_slot
           (Scenarios.occur quietEnv (Page.Click App.CorsProbe)) mountedPage App.CardProbe).
  vm_compute. discriminate.
Defined.

Lemma fire_on_tester (o : Page.Occurrence) (st : App.State) :
  let ts := App.tester st in
  let ts' := App.tester (Page.fire o st).2 in
  ts' = ts \/
  (exists c, ts' = Tester.step (Page.world o) (Tester.OpInitializeSDK c) ts) \/
  (exists c, ts' = Tester.step (Page.world o) (Tester.OpTestPaymentIntent c) ts) \/
  (exists c, ts' = Tester.step (Page.world o) (Tester.OpTestCardForm c "cardFormContainer") ts) \/
  (exists c, ts' = Tester.step (Page.world o) (Tester.OpTestTokenForm c "tokenFormContainer") ts) \/
  (exists c, ts' = Tester.step (Page.world o) (Tester.OpTestCORS c) ts) \/
  (exists r, ts' = Tester.step (Page.world o) (Tester.OpCardCallback "cardFormContainer" r) ts) \/
  (exists r, ts' = Tester.step (Page.world o) (Tester.OpTokenCallback "tokenFormContainer" r) ts) \/
  (exists i, ts' = (Tester.updateElement i (fun _ => Blank) ts).2).
Proof.
  intros ts ts'. subst ts ts'. unfold Page.fire.
  destruct (Page.event o) as [p| | | |v|v|v|r|r].
  - destruct p; unfold App.handler.
    + right; left. exists (App.config st). unfold Tester.step.
      app_unfold. split_probe; try (destruct (Tester.success r)); try (destruct e); reflexivity.
    + unfold App.testPaymentIntent. js_simpl.
      destruct (Tester.isSDKInitialized (App.tester st)); js_simpl; [|left; reflexivity].
      right; right; left. exists (App.config st). unfold Tester.step.
      app_unfold. split_probe; try (destruct (Tester.success r)); try (destruct e); reflexivity.
    + unfold App.testCardForm. js_simpl.
      destruct (Tester.isSDKInitialized (App.tester st)); js_simpl; [|left; reflexivity].
      right; right; right; left. exists (App.config st). unfold Tester.step.
      app_unfold. split_probe; try (destruct (Tester.success r)); try (destruct e); reflexivity.
    + unfold App.testTokenForm. js_simpl.
      destruct (Tester.isSDKInitialized (App.tester st)); js_simpl; [|left; reflexivity].
      right; right; right; right; left. exists (App.config st). unfold Tester.step.
      app_unfold. split_probe; try (destruct (Tester.success r)); try (destruct e); reflexivity.
    + right; right; right; right; right; left. exists (App.config st). unfold Tester.step.
      app_unfold. split_probe; try (destruct (Tester.success r)); try (destruct e); reflexivity.
  - do 8 right. exists "cardFormContainer". reflexivity.
  - do 8 right. exists "tokenFormContainer". reflexivity.
  - left; reflexivity.
  - left; reflexivity.
  - left; reflexivity.
  - left; reflexivity.
  - do 6 right; left. exists r. unfold Tester.step. app_unfold.
    destruct (Tester.cardCallback _ r _); reflexivity.
  - do 7 right; left. exists r. unfold Tester.step. app_unfold.
    destruct (Tester.tokenCallback _ r _); reflexivity.
Qed.

Lemma fit_alter (k : FormKind) (f : Surface -> Surface) (i j : string)
    (m : gmap string Surface) :
  (i = j -> forall c, m !! j = Some c -> Inv.surfaceFits k (Some c) = true ->
            Inv.surfaceFits k (Some (f c)) = true) ->
  Inv.surfaceFits k (m !! j) = true ->
  Inv.surfaceFits k (alter f i m !! j) = true.
Proof.
  intros Hf H. destruct (decide (i = j)) as [Heq|Hne].
  - subst j. rewrite lookup_alter_eq. destruct (m !! i) as [c|] eqn:E; [|exact H].
    cbn. apply (Hf eq_refl c eq_refl H).
  - rewrite lookup_alter_ne by exact Hne. exact H.
Qed.

Lemma step_keeps_fit (env : Environment) (op : Tester.Op) (s : Tester.Store)
    (k : FormKind) (j : string) :
  match op with
  | Tester.OpTestCardForm _ i => i = j -> k = CardForm
  | Tester.OpTestTokenForm _ i => i = j -> k = TokenForm
  | _ => True
  end ->
  Inv.surfaceFits k (Tester.document s !! j) = true ->
  Inv.surfaceFits k (Tester.document (Tester.step env op s) !! j) = true.
Proof.
  intros Hop H.
  destruct op as [c|c|c i|c i|c|i o|i o]; tester_unfold; repeat js_case; try exact H.
  all: repeat (apply fit_alter; [intros Heq x Hx Hfit|]); try exact H.
  all: try (rewrite (Hop Heq); reflexivity).
  all: destruct x as [| |k' sl rd]; try exact Hfit; destruct k, k'; try exact Hfit; reflexivity.
Qed.

Lemma fire_keeps_conditions (o : Page.Occurrence) (st : App.State) :
  Inv.pageSurfaces (App.tester st) /\ Inv.flagHasClient (App.tester st)
    /\ Inv.clientWellFormed (App.tester st) ->
  Inv.pageSurfaces (App.tester (Page.fire o st).2)
    /\ Inv.flagHasClient (App.tester (Page.fire o st).2)
    /\ Inv.clientWellFormed (App.tester (Page.fire o st).2).
Proof.
  intros ([Hc Ht] & Hflag & Hwf).
  destruct (fire_on_tester o st)
    as [E|[[c E]|[[c E]|[[c E]|[[c E]|[[c E]|[[r E]|[[r E]|[i E]]]]]]]]];
    cbv zeta in E; rewrite E; clear E.
  1: { repeat split; assumption. }
  1-7: split;
    [ split; apply step_keeps_fit; try assumption; try exact I;
      first [intros _; reflexivity | intros [=]]
    | apply step_keeps_client_conditions; split; assumption ].
  unfold Tester.updateElement. js_simpl.
  split; [split; (apply fit_alter; [intros _ x _ _; reflexivity | assumption])|].
  split; assumption.
Qed.

Lemma run_keeps_conditions (os : list Page.Occurrence) (st : App.State) :
  Inv.pageSurfaces (App.tester st) /\ Inv.flagHasClient (App.tester st)
    /\ Inv.clientWellFormed (App.tester st) ->
  Inv.pageSurfaces (App.tester (Page.run os st))
    /\ Inv.flagHasClient (App.tester (Page.run os st))
    /\ Inv.clientWellFormed (App.tester (Page.run os st)).
Proof.
  revert st. induction os as [|o os IH]; intros st H; simpl; [exact H|].
  apply IH, fire_keeps_conditions, H.
Qed.

Lemma initial_conditions :
  Inv.pageSurfaces (App.tester App.initialState) /\
  Inv.flagHasClient (App.tester App.initialState) /\
  Inv.clientWellFormed (App.tester App.initialState).
Proof.
  split; [split; reflexivity|]. split.
  - intros H. discriminate H.
  - intros o H. discriminate H.
Qed.


(** X17.  On every page reachable from the first render, the two mount
    surfaces are in the document, the card surface never holds the token
    form's markup nor the token surface the card form's, and whenever
    [isSDKInitialized()] is true a client is held that was constructed
    for the development environment with a publishable key, a business
    id and an SDK token that are not empty. *)

Theorem reachable_page_conditions (os : list Page.Occurrence) :
  let ts := App.tester (Page.run os App.initialState) in
  Inv.pageSurfaces ts /\
  (Tester.isSDKInitialized ts = true ->
   exists sdk, Tester.axraPay (Tester.this ts) = Some sdk /\
               environment (options sdk) = "development" /\
               opt_publishableKey (options sdk) <> EmptyString /\
               opt_businessId (options sdk) <> EmptyString /\
               opt_sdkToken (options sdk) <> EmptyString).
Proof.
  intros ts.
  destruct (run_keeps_conditions os App.initialState initial_conditions)
    as (Hs & Hflag & Hwf).
  fold ts in Hs, Hflag, Hwf. split; [exact Hs|].
  intros Hready. specialize (Hflag Hready).
  unfold Inv.clientWellFormed, Inv.clientOptions in Hwf.
  destruct (Tester.axraPay (Tester.this ts)) as [sdk|]; [|congruence].
  exists sdk. split; [reflexivity|].
  specialize (Hwf (options sdk) eq_refl). unfold Inv.wellFormed in Hwf.
  apply andb_prop in Hwf as [Hwf H4]. apply andb_prop in Hwf as [Hwf H3].
  apply andb_prop in Hwf as [H1 H2]. apply String.eqb_eq in H1.
  repeat split; try exact H1; intros E; rewrite E in *; discriminate.
Qed.


(** X18.  On every reachable page, a dependent probe whose button is
    enabled reaches the SDK: its handler makes exactly one client call,
    and the envelope it stores is not the "Please initialize the SDK
    first" one. *)

Theorem enabled_button_reaches_sdk (os : list Page.Occurrence) (env : Environment)
    (t0 t1 : string) (p : App.Probe) :
  let st := Page.run os App.initialState in
  let st' := (App.handler env t0 t1 p st).2 in
  App.dependent p = true ->
  Page.buttonDisabled p st = false ->
  (exists c, Tester.calls (App.tester st') = Tester.calls (App.tester st) ++ [c] /\
             is_client_call c = true) /\
  (exists r, App.slot p (App.results st') = Some r /\
             Tester.message r <> "Please initialize the SDK first").
Proof.
  intros st st' Hdep Hen.
  destruct (run_keeps_conditions os App.initialState initial_conditions)
    as ([Hc Ht] & Hflag & _).
  fold st in Hc, Ht, Hflag. subst st'.
  assert (Hready : Tester.isInitialized (Tester.this (App.tester st)) = true).
  { destruct p; try discriminate Hdep; cbn in Hen; apply negb_false_iff in Hen; exact Hen. }
  specialize (Hflag Hready).
  destruct (Tester.axraPay (Tester.this (App.tester st))) as [sdk|] eqn:Hsdk; [|congruence].
  clear Hflag Hen.
  destruct p; try discriminate Hdep; clear Hdep;
    app_unfold; unfold Tester.isSDKInitialized; rewrite Hready; js_simpl;
    tester_unfold; rewrite Hready, Hsdk; js_simpl.
  - repeat js_case; (split; [eexists; split; reflexivity|]);
      eexists; (split; [reflexivity|]); cbn; discriminate.
  - destruct (Tester.document (App.tester st) !! "cardFormContainer") as [c|] eqn:E;
      [|discriminate Hc]. js_simpl.
    repeat js_case; (split; [eexists; split; reflexivity|]);
      eexists; (split; [reflexivity|]); cbn; discriminate.
  - destruct (Tester.document (App.tester st) !! "tokenFormContainer") as [c|] eqn:E;
      [|discriminate Ht]. js_simpl.
    repeat js_case; (split; [eexists; split; reflexivity|]);
      eexists; (split; [reflexivity|]); cbn; discriminate.
Qed.


Lemma enabled_button_reaches_sdk_witness :
  let st := Page.run [Scenarios.occur quietEnv (Page.Click App.InitProbe)]
                     App.initialState in
  let st' := (App.handler Scenarios.hostileEnv "12:00:01.000" "12:00:01.100"
                          App.CardProbe st).2 in
  (exists c, Tester.calls (App.tester st') = Tester.calls (App.tester st) ++ [c] /\
             is_client_call c = true) /\
  (exists r, App.slot App.CardProbe (App.results st') = Some r /\
             Tester.message r <> "Please initialize the SDK first").
Proof.
  exact (enabled_button_reaches_sdk
           [Scenarios.occur quietEnv (Page.Click App.InitProbe)]
           Scenarios.hostileEnv "12:00:01.000" "12:00:01.100" App.CardProbe
           eq_refl eq_refl).
Defined.

(** X19.  The log pane shows the "Ready to test..." notice exactly when
    the log is empty; otherwise it shows one row per entry, in log
    order, keyed by position, with the bracketed timestamp, the icon and
    colour of the entry's severity, and the entry's message. *)

Theorem log_pane_shows_every_entry (logs : list App.LogEntry) :
  match View.TestLogs logs with
  | View.EmptyNotice notice => logs = [] /\ notice = "Ready to test..."
  | View.LogRows rows =>
      logs <> [] /\
      length rows = length logs /\
      forall (i : nat) (log : App.LogEntry),
        logs !! i = Some log ->
        rows !! i = Some {| View.key := i;
                            View.stamp := "[" +:+ App.timestamp log +:+ "]";
                            View.color := View.getLogColor (App.type log);
                            View.icon := View.getLogIcon (App.type log);
                            View.text := App.message log |}
  end.
Proof.
  unfold View.TestLogs. destruct logs as [|l logs]; [split; reflexivity|].
  cbn [length Nat.eqb]. split; [discriminate|]. split.
  - rewrite length_imap. reflexivity.
  - intros i log H. rewrite list_lookup_imap, H. reflexivity.
Qed.


(** X20.  The three severities get three different icons and three
    different colours. *)

Theorem severities_are_told_apart (a b : App.LogType) :
  (View.getLogIcon a = View.getLogIcon b -> a = b) /\
  (View.getLogColor a = View.getLogColor b -> a = b).
Proof.
  split; destruct a, b; cbn; intros H; try reflexivity; discriminate H.
Qed.


(** X21.  After a probe's button handler has run, whatever the outcome,
    the probe's slot holds an envelope and its panel is shown: green
    with a green dot for [success: true], red otherwise, with the
    envelope's message, and with a details section exactly when the
    envelope has [data]. *)

Theorem every_click_shows_a_result (env : Environment) (t0 t1 : string) (p : App.Probe)
    (st : App.State) :
  let st' := (App.handler env t0 t1 p st).2 in
  exists r,
    App.slot p (App.results st') = Some r /\
    Page.resultPanel p st' =
      Some {| View.panelClass :=
                if Tester.success r
                then "p-4 rounded-lg border bg-green-50 text-green-800 border-green-200 mt-4"
                else "p-4 rounded-lg border bg-red-50 text-red-800 border-red-200 mt-4";
              View.dotClass :=
                if Tester.success r
                then "w-2 h-2 rounded-full mr-2 bg-green-400"
                else "w-2 h-2 rounded-full mr-2 bg-red-400";
              View.panelText := Tester.message r;
              View.details := Tester.data r |}.
Proof.
  intros st'.
  assert (H : exists r, App.slot p (App.results st') = Some r).
  { subst st'.
    pose proof (tester_throws_error_objects) as T.
    destruct p;
      [ specialize (T env App.InitProbe) | specialize (T env App.PaymentProbe)
      | specialize (T env App.CardProbe) | specialize (T env App.TokenProbe)
      | specialize (T env App.CorsProbe) ];
      specialize (T (App.config st) (App.tester st)); unfold App.probe in T;
      app_unfold; unfold Tester.isSDKInitialized in *.
    all: try (destruct (Tester.isInitialized _) eqn:Hready; js_simpl;
              [|eexists; reflexivity]).
    all: split_probe.
    all: try (destruct (Tester.success r); js_simpl; eexists; reflexivity).
    all: destruct (T _ _ eq_refl) as [v ->]; js_simpl; eexists; reflexivity. }
  destruct H as [r Hr]. exists r. split; [exact Hr|].
  unfold Page.resultPanel, View.TestResult. rewrite Hr.
  destruct (Tester.success r); reflexivity.
Qed.


(** X22.  Editing the business id does not re-initialize anything: the
    next "Test Payment Intent" sends the edited id through the client
    that was constructed before the edit, and the instance stays as it
    was. *)

Theorem edited_business_id_is_sent_by_the_old_client (env : Environment) (t0 t1 : string)
    (st : App.State) (sdk : AxraPay) (value : string) :
  Tester.isSDKInitialized (App.tester st) = true ->
  Tester.axraPay (Tester.this (App.tester st)) = Some sdk ->
  let edited := (Page.editBusinessId value st).2 in
  let st' := (App.handler env t0 t1 App.PaymentProbe edited).2 in
  Tester.calls (App.tester st')
    = Tester.calls (App.tester st) ++
        [CallCreatePaymentIntent sdk
           {| pi_amount := "29.99"; pi_currency := "USD";
              pi_businessId := value; pi_description := "SDK Test Payment" |}] /\
  Tester.this (App.tester st') = Tester.this (App.tester st).
Proof.
  intros Hready Hsdk. cbv zeta. unfold Tester.isSDKInitialized in Hready.
  unfold Page.editBusinessId, App.setConfig.
  app_unfold; unfold Tester.isSDKInitialized; rewrite Hready; js_simpl.
  tester_unfold. rewrite Hready, Hsdk. js_simpl.
  repeat js_case; split; reflexivity.
Qed.


Lemma edited_business_id_is_sent_by_the_old_client_witness :
  let edited := (Page.editBusinessId "other-business" Scenarios.readyPage).2 in
  let st' := (App.handler quietEnv "12:00:02.000" "12:00:02.100"
                          App.PaymentProbe edited).2 in
  Tester.calls (App.tester st')
    = Tester.calls (App.tester Scenarios.readyPage) ++
        [CallCreatePaymentIntent {| options := Tester.sdkOptions goodConfig |}
           {| pi_amount := "29.99"; pi_currency := "USD";
              pi_businessId := "other-business";
              pi_description := "SDK Test Payment" |}] /\
  Tester.this (App.tester st') = Tester.this (App.tester Scenarios.readyPage).
Proof.
  exact (edited_business_id_is_sent_by_the_old_client quietEnv
           "12:00:02.000" "12:00:02.100" Scenarios.readyPage
           {| options := Tester.sdkOptions goodConfig |} "other-business"
           eq_refl eq_refl).
Defined.
